(** * GT911 capacitive touch controller driver

    A shallow embedding of [driver/esp32/gt911.py], the MicroPython driver
    of the GT911 touch controller, and the properties of its configuration
    upload, command dispatch and coordinate polling.

    Conventions of the embedding.
    - Python integers are [Z]; [&], [|], [>>], [<<] and [~] are [Z.land],
      [Z.lor], [Z.shiftr], [Z.shiftl] and [Z.lnot].
    - A [bytearray] is a [list Z] of values in [0, 256).  The driver is
      MicroPython code: a store into a bytearray keeps the low eight bits
      of the value (the checksum line [config[184] = (~config[184]) + 1]
      stores a non-positive number and relies on it), and an index outside
      the buffer raises [IndexError].
    - [self.mv] is a memoryview of [self.data_buf]: the slice [self.mv[:k]]
      is the first [k] bytes of the scratch buffer at the time of the call,
      and a read into it overwrites those bytes of [self.data_buf].
    - The I2C bus is the environment.  Every transaction the driver requests
      is appended to a trace; whether it completes, and the bytes a read
      delivers, are functions of the trace up to and including the request.
    - [sum(l) / len(l)] is a float division.  The rounding of the float
      format is a function on rationals about which only monotonicity and
      exactness on short binary fractions are assumed.
    - [print] writes to the console and is not part of the model. *)

From Stdlib Require Import ZArith QArith Qround Lia.
From stdpp Require Import base list.
Local Open Scope Z_scope.

(** ** Python values and failures *)

Inductive exn : Type :=
| IndexError
| OSError
| UnicodeError
| ZeroDivisionError.

Inductive result (A : Type) : Type :=
| Ok (a : A)
| Raise (e : exn).
Arguments Ok {A} a.
Arguments Raise {A} e.

Definition rbind {A B} (r : result A) (k : A -> result B) : result B :=
  match r with
  | Ok a => k a
  | Raise e => Raise e
  end.

Declare Scope result_scope.
Delimit Scope result_scope with result.
Notation "'let?' x ':=' r 'in' k" := (rbind r (fun x => k))
  (at level 10, x name, r at level 99, k at level 200) : result_scope.

(** The low eight bits kept by a bytearray store. *)
Definition byte (v : Z) : Z := v mod 256.

(** [b[i]] *)
Definition getitem (b : list Z) (i : nat) : result Z :=
  match b !! i with
  | Some v => Ok v
  | None => Raise IndexError
  end.

(** [b[i] = v] *)
Definition setitem (b : list Z) (i : nat) (v : Z) : result (list Z) :=
  if (i <? length b)%nat then Ok (<[i := byte v]> b) else Raise IndexError.

(** [sum(l)] *)
Definition sum (l : list Z) : Z := foldr Z.add 0 l.

(** ** Register map *)

Definition GT911_I2C_SLAVE_ADDR : Z := 0x5D.
Definition GT911_REG_COMMAND : Z := 0x8040.
Definition GT911_REG_CONFIG_DATA : Z := 0x8047.
Definition GT911_REG_MAX_X : Z := 0x8048.
Definition GT911_REG_MAX_Y : Z := 0x804A.
Definition GT911_REG_CONFIG_FRESH : Z := 0x8100.
Definition GT911_REG_ID : Z := 0x8140.
Definition GT911_REG_FW_VER : Z := 0x8144.
Definition GT911_READ_COORD_ADDR : Z := 0x814E.
Definition GT911_POINT1_X_ADDR : Z := 0x8150.

Definition GT911_CMD_READ : Z := 0x00.
Definition GT911_CMD_DIFFVAL : Z := 0x01.
Definition GT911_CMD_SOFTRESET : Z := 0x02.
Definition GT911_CMD_BASEUPDATE : Z := 0x03.
Definition GT911_CMD_CALIBRATE : Z := 0x04.
Definition GT911_CMD_SCREEN_OFF : Z := 0x05.

(** ** The configuration table of [init] *)

(** The list literal handed to [bytearray(...)] at the top of [init]: one
    list per row of the source (the first row spans its first five lines),
    appended in order. *)
Definition config_literal (width height : Z) : list Z :=
  [ Z.shiftr (Z.land GT911_REG_CONFIG_DATA 0xFF00) 8;
    Z.land GT911_REG_CONFIG_DATA 0xFF; 0x81;
    Z.land width 0x00FF; Z.land (Z.shiftr width 8) 0x00FF;
    Z.land height 0x00FF; Z.land (Z.shiftr height 8) 0x00FF; 1; Z.shiftl 1 2;
    0x20; 0x01; 0x08; 0x28; 0x05; 0x50 ]
  ++ [0x3C; 0x0F; 0x05; 0x00; 0x00; 0x00; 0x00; 0x00; 0x00; 0x00; 0x00; 0x00; 0x00]
  ++ [0x00; 0x89; 0x2A; 0x0B; 0x2D; 0x2B; 0x0F; 0x0A; 0x00; 0x00; 0x01; 0xA9; 0x03]
  ++ [0x2D; 0x00; 0x01; 0x00; 0x00; 0x00; 0x03; 0x00; 0x00; 0x00; 0x00; 0x00; 0x21]
  ++ [0x59; 0x94; 0xC5; 0x02; 0x07; 0x00; 0x00; 0x04; 0x93; 0x24; 0x00; 0x7D; 0x2C]
  ++ [0x00; 0x6B; 0x36; 0x00; 0x5D; 0x42; 0x00; 0x53; 0x50; 0x00; 0x53; 0x00; 0x00]
  ++ [0x00; 0x00; 0x00; 0x00; 0x00; 0x00; 0x00; 0x00; 0x00; 0x00; 0x00; 0x00; 0x00]
  ++ [0x00; 0x00; 0x00; 0x00; 0x00; 0x00; 0x00; 0x00; 0x00; 0x00; 0x00; 0x00; 0x00]
  ++ [0x00; 0x00; 0x00; 0x00; 0x00; 0x00; 0x00; 0x00; 0x02; 0x04; 0x06; 0x08; 0x0A]
  ++ [0x0C; 0x0E; 0x10; 0x12; 0x14; 0x16; 0xFF; 0xFF; 0xFF; 0x00; 0x00; 0x00; 0x00]
  ++ [0x00; 0x00; 0x00; 0x00; 0x00; 0x00; 0x00; 0x00; 0x00; 0x00; 0x00; 0x00; 0x00]
  ++ [0x02; 0x04; 0x06; 0x08; 0x0A; 0x0F; 0x10; 0x12; 0x16; 0x18; 0x1C; 0x1D; 0x1E]
  ++ [0x1F; 0x20; 0x21; 0x22; 0x24; 0xFF; 0xFF; 0xFF; 0xFF; 0xFF; 0xFF; 0xFF; 0x00]
  ++ [0x00; 0x00; 0x00; 0x00; 0x00; 0x00; 0x00; 0x00; 0x00; 0x00; 0x00; 0x00; 0x00]
  ++ [0x00; 0x00; 0xD6; 0x01].

(** [bytearray(l)]: every element is stored as a byte. *)
Definition bytearray (l : list Z) : list Z := map byte l.

(** [for i in range(184): config[184] += config[i]], over the indices [l]. *)
Fixpoint checksum_loop (l : list nat) (config : list Z) : result (list Z) :=
  match l with
  | [] => Ok config
  | i :: l' =>
      (let? acc := getitem config 184 in
       let? c := getitem config i in
       let? config' := setitem config 184 (acc + c) in
       checksum_loop l' config')%result
  end.

(** Lines 109 to 136 of [init]: the table, then the checksum stored at
    index 184. *)
Definition init_config (width height : Z) : result (list Z) :=
  (let config := bytearray (config_literal width height) in
   let? config := setitem config 184 0 in
   let? config := checksum_loop (seq 0 184) config in
   let? c := getitem config 184 in
   setitem config 184 (Z.lnot c + 1))%result.

(** The byte [init] stores at index 184: the two's complement of the sum
    of the first 184 bytes of the buffer. *)
Definition stored_checksum (width height : Z) : Z :=
  byte (- sum (take 184 (bytearray (config_literal width height)))).

(** ** The configuration blob as documented

    The blob is the image of the registers 0x8047 to 0x8100: the 186 bytes
    that follow the two address bytes of the upload. *)

(** The blob carried by an upload buffer. *)
Definition blob_of (config : list Z) : list Z := drop 2 config.

(** The documented checksum of a list of bytes:
    [((~sum(bytes) mod 256) + 1) mod 256]. *)
Definition spec_checksum (bytes : list Z) : Z :=
  byte (byte (Z.lnot (sum bytes)) + 1).

(** The documented checksum invariant of a blob: byte 184 is the checksum
    of the 184 bytes before it, so that the first 185 bytes sum to zero
    modulo 256. *)
Definition checksum_invariant (blob : list Z) : Prop :=
  blob !! 184%nat = Some (spec_checksum (take 184 blob)) /\
  byte (sum (take 185 blob)) = 0.

(** The documented placement of the panel dimensions: little-endian at
    the offsets 3 to 6 of a blob of 186 bytes that ends with the refresh
    flag 1. *)
Definition documented_layout (w h : Z) (blob : list Z) : Prop :=
  length blob = 186%nat /\
  blob !! 3%nat = Some (Z.land w 0xFF) /\
  blob !! 4%nat = Some (Z.land (Z.shiftr w 8) 0xFF) /\
  blob !! 5%nat = Some (Z.land h 0xFF) /\
  blob !! 6%nat = Some (Z.land (Z.shiftr h 8) 0xFF) /\
  blob !! 185%nat = Some 1.

(** ** The driver object and the bus *)

(** A transaction requested on the I2C bus: [i2c.writeto(addr, buf)] with
    the bytes of [buf], or [i2c.readfrom_into(addr, buf)] with the length
    of [buf]. *)
Inductive event : Type :=
| Writeto (addr : Z) (buf : list Z)
| ReadfromInto (addr : Z) (n : nat).

(** The attributes of [self] the driver uses ([width] and [height] come
    from the base class) and the transactions requested so far, oldest
    first. *)
Record state : Type := mkState {
  data_buf : list Z;
  width : Z;
  height : Z;
  trace : list event
}.

Definition set_data_buf (b : list Z) (st : state) : state :=
  mkState b (width st) (height st) (trace st).

Definition log (e : event) (st : state) : state :=
  mkState (data_buf st) (width st) (height st) (trace st ++ [e]).

(** [GT911.__init__]: a scratch buffer of six zero bytes. *)
Definition GT911_new (w h : Z) (tr : list event) : state :=
  mkState (replicate 6 0) w h tr.

(** Computations of the driver: they read and update the state and end
    with a value or an exception. *)
Definition M (A : Type) : Type := state -> result A * state.

Definition ret {A} (a : A) : M A := fun st => (Ok a, st).

Definition raise {A} (e : exn) : M A := fun st => (Raise e, st).

Definition bind {A B} (m : M A) (k : A -> M B) : M B :=
  fun st =>
    match m st with
    | (Ok a, st') => k a st'
    | (Raise e, st') => (Raise e, st')
    end.

Declare Scope drv_scope.
Delimit Scope drv_scope with drv.
Notation "'do' x <- m ;; k" := (bind m (fun x => k))
  (at level 10, x name, m at level 99, k at level 200) : drv_scope.
Notation "'run' m ;; k" := (bind m (fun _ => k))
  (at level 10, m at level 99, k at level 200) : drv_scope.

(** ** Vocabulary of the register protocol *)

(** A register address on the wire: high byte, then low byte. *)
Definition encode_address (addr : Z) : list Z :=
  [Z.shiftr addr 8; Z.land addr 0xFF].

(** A 16-bit little-endian field. *)
Definition decode_u16_le (low high : Z) : Z := Z.lor low (Z.shiftl high 8).

(** The scratch buffer has the six bytes [__init__] allocates. *)
Definition wf (st : state) : Prop := length (data_buf st) = 6%nat.

(** Reading the status register: its address is written, one byte read. *)
Definition status_query : list event :=
  [Writeto GT911_I2C_SLAVE_ADDR (encode_address GT911_READ_COORD_ADDR);
   ReadfromInto GT911_I2C_SLAVE_ADDR 1].

(** Acknowledging the status register: address and a zero byte. *)
Definition status_clear : event :=
  Writeto GT911_I2C_SLAVE_ADDR (encode_address GT911_READ_COORD_ADDR ++ [0]).

(** Reading the block of point [i]: the address of register
    [0x8150 + i * 8] is written, six bytes are read. *)
Definition point_query (i : nat) : list event :=
  [Writeto GT911_I2C_SLAVE_ADDR
     (encode_address (GT911_POINT1_X_ADDR + Z.of_nat i * 8));
   ReadfromInto GT911_I2C_SLAVE_ADDR 6].

(** The blocks of the points with the indices [l], in turn. *)
Definition points_query (l : list nat) : list event :=
  concat (map point_query l).

(** Sending a command: the address of the command register and the
    command byte. *)
Definition command_write (command : Z) : event :=
  Writeto GT911_I2C_SLAVE_ADDR (encode_address GT911_REG_COMMAND ++ [command]).

(** The queries [init] makes for its diagnostic output. *)
Definition product_id_query : list event :=
  [Writeto GT911_I2C_SLAVE_ADDR (encode_address GT911_REG_ID);
   ReadfromInto GT911_I2C_SLAVE_ADDR 4].

Definition firmware_query : list event :=
  [Writeto GT911_I2C_SLAVE_ADDR (encode_address GT911_REG_FW_VER);
   ReadfromInto GT911_I2C_SLAVE_ADDR 2].

(** [int(q)] for a float [q]: truncation toward zero. *)
Definition int_of_float (q : Q) : Z :=
  if Qle_bool 0 q then Qfloor q else Qceiling q.

Section Driver.

(** Does the transaction that ends the given trace complete?  [false] is
    an [OSError] of the bus (no acknowledge, timeout). *)
Variable bus_ok : list event -> bool.

(** Byte [j] delivered by the read that ends the given trace. *)
Variable bus_data : list event -> nat -> Z.

(** Are the given bytes well-formed UTF-8 ([bytes.decode('utf-8')] of the
    runtime raises [UnicodeError] when they are not)? *)
Variable utf8_check : list Z -> bool.

(** Rounding of a rational to the float format of the runtime. *)
Variable fl : Q -> Q.

Local Open Scope drv_scope.

(** *** Scratch buffer and bus primitives *)

(** [self.data_buf[i]] *)
Definition buf_get (i : nat) : M Z :=
  fun st => (getitem (data_buf st) i, st).

(** [self.data_buf[i] = v] *)
Definition buf_set (i : nat) (v : Z) : M unit :=
  fun st =>
    match setitem (data_buf st) i v with
    | Ok b => (Ok tt, set_data_buf b st)
    | Raise e => (Raise e, st)
    end.

(** [self.mv[:k]], read at the time of the call. *)
Definition mv_slice (k : nat) : M (list Z) :=
  fun st => (Ok (take k (data_buf st)), st).

(** [self.i2c.writeto(addr, buf)] *)
Definition i2c_writeto (addr : Z) (buf : list Z) : M unit :=
  fun st =>
    let st' := log (Writeto addr buf) st in
    if bus_ok (trace st') then (Ok tt, st') else (Raise OSError, st').

(** [self.i2c.readfrom_into(addr, self.mv[:k])]: the bytes delivered
    replace the first [k] bytes of the scratch buffer. *)
Definition i2c_readfrom_into (addr : Z) (k : nat) : M unit :=
  fun st =>
    let n := length (take k (data_buf st)) in
    let st' := log (ReadfromInto addr n) st in
    if bus_ok (trace st') then
      (Ok tt,
       set_data_buf
         (map (fun j => byte (bus_data (trace st') j)) (seq 0 n)
            ++ drop n (data_buf st)) st')
    else (Raise OSError, st').

(** *** Accessors *)

(** [set_command_register(command)] *)
Definition set_command_register (command : Z) : M unit :=
  run buf_set 0 (Z.shiftr (Z.land GT911_REG_COMMAND 0xFF00) 8) ;;
  run buf_set 1 (Z.land GT911_REG_COMMAND 0xFF) ;;
  run buf_set 2 command ;;
  do b <- mv_slice 3 ;;
  i2c_writeto GT911_I2C_SLAVE_ADDR b.

(** The [product_id] property.  The decoded text is only printed; the
    model returns its bytes. *)
Definition product_id : M (list Z) :=
  run buf_set 0 (Z.shiftr (Z.land GT911_REG_ID 0xFF00) 8) ;;
  run buf_set 1 (Z.land GT911_REG_ID 0xFF) ;;
  do b <- mv_slice 2 ;;
  run i2c_writeto GT911_I2C_SLAVE_ADDR b ;;
  run i2c_readfrom_into GT911_I2C_SLAVE_ADDR 4 ;;
  do b3 <- buf_get 3 ;;
  do b2 <- buf_get 2 ;;
  do b1 <- buf_get 1 ;;
  do b0 <- buf_get 0 ;;
  let buf := bytearray [b3; b2; b1; b0] in
  if utf8_check buf then ret buf else raise UnicodeError.

(** The [firmware] property. *)
Definition firmware : M Z :=
  run buf_set 0 (Z.shiftr (Z.land GT911_REG_FW_VER 0xFF00) 8) ;;
  run buf_set 1 (Z.land GT911_REG_FW_VER 0xFF) ;;
  do b <- mv_slice 2 ;;
  run i2c_writeto GT911_I2C_SLAVE_ADDR b ;;
  run i2c_readfrom_into GT911_I2C_SLAVE_ADDR 2 ;;
  do b1 <- buf_get 1 ;;
  do b0 <- buf_get 0 ;;
  ret (Z.lor (Z.shiftl b1 8) b0).

(** The getter of the [status] property. *)
Definition status_get : M Z :=
  run buf_set 0 (Z.shiftr (Z.land GT911_READ_COORD_ADDR 0xFF00) 8) ;;
  run buf_set 1 (Z.land GT911_READ_COORD_ADDR 0xFF) ;;
  do b <- mv_slice 2 ;;
  run i2c_writeto GT911_I2C_SLAVE_ADDR b ;;
  run i2c_readfrom_into GT911_I2C_SLAVE_ADDR 1 ;;
  buf_get 0.

(** The setter of the [status] property. *)
Definition status_set (value : Z) : M unit :=
  run buf_set 0 (Z.shiftr (Z.land GT911_READ_COORD_ADDR 0xFF00) 8) ;;
  run buf_set 1 (Z.land GT911_READ_COORD_ADDR 0xFF) ;;
  run buf_set 2 value ;;
  do b <- mv_slice 3 ;;
  i2c_writeto GT911_I2C_SLAVE_ADDR b.

(** *** [init] *)

Definition init : M unit :=
  do config <- (fun st => (init_config (width st) (height st), st)) ;;
  do _pid <- product_id ;;
  do _fw <- firmware ;;
  run i2c_writeto GT911_I2C_SLAVE_ADDR config ;;
  set_command_register 0x00.

(** *** [_get_coords] *)

(** [a / b] on integers: both operands are converted to floats and the
    quotient is rounded. *)
Definition truediv (a b : Z) : M Q :=
  if b =? 0 then raise ZeroDivisionError
  else ret (fl (fl (inject_Z a) / fl (inject_Z b))%Q).

(** [len(l)] *)
Definition len (l : list Z) : Z := Z.of_nat (length l).

(** One iteration of [for i in range(coord_num)]: the address of point
    [i] is written, its block read and decoded; the result is the pair
    appended to [coord_x] and [coord_y]. *)
Definition read_point (i : Z) : M (Z * Z) :=
  run buf_set 0
    (Z.shiftr (Z.land (GT911_POINT1_X_ADDR + (i * 8)) 0xFF00) 8) ;;
  run buf_set 1 (Z.land (GT911_POINT1_X_ADDR + (i * 8)) 0xFF) ;;
  do b <- mv_slice 2 ;;
  run i2c_writeto GT911_I2C_SLAVE_ADDR b ;;
  run i2c_readfrom_into GT911_I2C_SLAVE_ADDR 6 ;;
  do x <- buf_get 0 ;;
  do y <- buf_get 2 ;;
  do b1 <- buf_get 1 ;;
  let x := Z.lor x (Z.shiftl b1 8) in
  do b3 <- buf_get 3 ;;
  let y := Z.lor y (Z.shiftl b3 8) in
  ret (x, y).

(** The loop over the indices [l], with the lists collected so far. *)
Fixpoint read_points (l : list nat) (coord_x coord_y : list Z)
  : M (list Z * list Z) :=
  match l with
  | [] => ret (coord_x, coord_y)
  | i :: l' =>
      do p <- read_point (Z.of_nat i) ;;
      read_points l' (coord_x ++ [p.1]) (coord_y ++ [p.2])
  end.

Definition _get_coords : M (option (Z * Z)) :=
  do status <- status_get ;;
  if negb (Z.land status 0x80 =? 0) then
    let coord_num := Z.land status 0x0F in
    if negb (coord_num =? 0) then
      do cs <- read_points (seq 0 (Z.to_nat coord_num)) [] [] ;;
      let coord_x := cs.1 in
      let coord_y := cs.2 in
      do qx <- truediv (sum coord_x) (len coord_x) ;;
      let x := int_of_float qx in
      do qy <- truediv (sum coord_y) (len coord_y) ;;
      let y := int_of_float qy in
      run status_set 0 ;;
      ret (Some (x, y))
    else
      run status_set 0 ;;
      ret None
  else ret None.

(** *** Vocabulary of the statements *)

(** The status byte a poll started after the trace [tr] reads. *)
Definition status_of (tr : list event) : Z :=
  byte (bus_data (tr ++ status_query) 0).

(** The point decoded from the block delivered by the read that ends the
    trace [tr]. *)
Definition point_at (tr : list event) : Z * Z :=
  (decode_u16_le (byte (bus_data tr 0)) (byte (bus_data tr 1)),
   decode_u16_le (byte (bus_data tr 2)) (byte (bus_data tr 3))).

(** The points delivered when the blocks with indices [l] are queried in
    turn after the trace [tr]. *)
Fixpoint points_read (tr : list event) (l : list nat) : list (Z * Z) :=
  match l with
  | [] => []
  | i :: l' =>
      let tr' := tr ++ point_query i in
      point_at tr' :: points_read tr' l'
  end.

(** [int(a / b)] as the driver evaluates it, for [b] other than zero. *)
Definition int_truediv (a b : Z) : Z :=
  int_of_float (fl (fl (inject_Z a) / fl (inject_Z b))%Q).

(** A computation started in [st] requests the transactions [full] and
    returns [v], unless a transaction fails on the bus: then it raises
    [OSError], having requested an initial part of [full] that ends with
    the failed transaction.  The scratch buffer keeps its six bytes. *)
Definition outcome {A} (st : state) (full : list event) (v : A)
    (p : result A * state) : Prop :=
  wf p.2 /\
  ((p.1 = Ok v /\ trace p.2 = trace st ++ full) \/
   (p.1 = Raise OSError /\ bus_ok (trace p.2) = false /\
    exists ev, ev `prefix_of` full /\ trace p.2 = trace st ++ ev)).

(** The transactions of one poll started after the trace [tr], when
    none fails: the status query, then, if the status has bit 7 set, the
    blocks of the reported points and the acknowledgement. *)
Definition poll_events (tr : list event) : list event :=
  let status := status_of tr in
  status_query ++
  (if negb (Z.land status 0x80 =? 0) then
     points_query (seq 0 (Z.to_nat (Z.land status 0x0F))) ++ [status_clear]
   else []).

(** The value of that poll. *)
Definition poll_value (tr : list event) : option (Z * Z) :=
  let status := status_of tr in
  if negb (Z.land status 0x80 =? 0) then
    let coord_num := Z.land status 0x0F in
    if negb (coord_num =? 0) then
      let pts := points_read (tr ++ status_query)
                   (seq 0 (Z.to_nat coord_num)) in
      Some (int_truediv (sum pts.*1) (len pts.*1),
            int_truediv (sum pts.*2) (len pts.*2))
    else None
  else None.

End Driver.

(** The number of six-byte block reads requested in a trace. *)
Definition is_block_read (e : event) : bool :=
  match e with
  | ReadfromInto _ 6 => true
  | _ => false
  end.

Definition block_reads (tr : list event) : nat :=
  length (filter is_block_read tr).

(** Validation at entry, as documented: an operation started with a dimension
    of 4096 or more raises before any transaction is requested. *)
Definition validated_at_entry (op : M unit) (st : state) : Prop :=
  4096 <= width st \/ 4096 <= height st ->
  exists e, (op st).1 = Raise e /\ trace (op st).2 = trace st.

(** ** The float format

    What is assumed of the rounding [fl] of the runtime: it is monotone,
    and it is exact on the integers below [2^20] and on their sixteenths.
    A binary format with a significand of at least twenty bits rounds like
    this in every rounding mode. *)
Definition float_format (fl : Q -> Q) : Prop :=
  (forall p q : Q, (p <= q)%Q -> (fl p <= fl q)%Q) /\
  (forall m : Z, 0 <= m < 2 ^ 20 ->
     (fl (inject_Z m) == inject_Z m)%Q /\ (fl (m # 16) == m # 16)%Q).

(** ** Simulated buses

    Concrete environments on which the driver is run in the examples. *)

Definition is_read (e : event) : bool :=
  match e with
  | ReadfromInto _ _ => true
  | Writeto _ _ => false
  end.

(** The number of reads requested in a trace. *)
Definition reads (tr : list event) : nat := length (filter is_read tr).

(** A device that answers the [k]-th read of a trace with the [k]-th block
    of [blocks] (bytes past the end of a block read as zero). *)
Definition scripted (blocks : list (list Z)) : list event -> nat -> Z :=
  fun tr j => nth j (nth (reads tr - 1) blocks []) 0.

(** A bus on which every transaction completes. *)
Definition always_ok : list event -> bool := fun _ => true.

(** A bus on which no transaction completes. *)
Definition never_ok : list event -> bool := fun _ => false.

(** A decoder that accepts every byte string. *)
Definition utf8_any : list Z -> bool := fun _ => true.

(** A float format with ten fractional bits: rounding toward minus
    infinity on the grid of multiples of 1/1024. *)
Definition fl_fixed (q : Q) : Q := (Qfloor (q * 1024) # 1024)%Q.

(** A freshly constructed driver for a panel of 480 by 320. *)
Definition fresh : state := GT911_new 480 320 [].

(** Blocks a device delivers, read after read. *)
Definition not_ready_blocks : list (list Z) := [[0x00]].
Definition no_point_blocks : list (list Z) := [[0x80]].
Definition one_point_blocks : list (list Z) :=
  [[0x81]; [0x34; 0x01; 0x78; 0x02; 0; 0]].
Definition three_point_blocks : list (list Z) :=
  [[0x83]; [100; 0; 100; 0; 0; 0]; [102; 0; 104; 0; 0; 0];
   [98; 0; 96; 0; 0; 0]].
Definition fifteen_point_blocks : list (list Z) := [[0x8F]].
Definition identity_blocks : list (list Z) :=
  [[0x00; 0x31; 0x31; 0x39]; [0x60; 0x10]].

(** ** Vocabulary of the further properties *)

(** Every transaction of [ev], requested after the trace [tr], completed
    on the bus. *)
Definition acknowledged (bus_ok : list event -> bool) (tr ev : list event)
  : Prop :=
  forall k : nat, (0 < k <= length ev)%nat -> bus_ok (tr ++ take k ev) = true.

(** A computation that returns normally only when every transaction it
    requested completed. *)
Definition faithful (bus_ok : list event -> bool) {A} (m : M A) : Prop :=
  forall st v st',
    m st = (Ok v, st') ->
    exists ev, trace st' = trace st ++ ev /\ acknowledged bus_ok (trace st) ev.

(** The bytes [product_id] hands to the decoder when it is called after
    the trace [tr]: the four bytes delivered, last first. *)
Definition product_id_bytes (bus_data : list event -> nat -> Z)
    (tr : list event) : list Z :=
  let block := bus_data (tr ++ product_id_query) in
  [byte (block 3%nat); byte (block 2%nat); byte (block 1%nat);
   byte (block 0%nat)].

(** The transactions a poll may request: reads of one or six bytes, writes
    of two address bytes, and the acknowledgement, all to the address of
    the controller. *)
Definition poll_event (e : event) : Prop :=
  match e with
  | Writeto addr buf =>
      addr = GT911_I2C_SLAVE_ADDR /\ (length buf = 2%nat \/ e = status_clear)
  | ReadfromInto addr n =>
      addr = GT911_I2C_SLAVE_ADDR /\ (n = 1%nat \/ n = 6%nat)
  end.

(** A decoder that accepts ASCII only. *)
Definition utf8_ascii (b : list Z) : bool := forallb (fun c => c <? 128) b.

(** A device whose product ID is not text. *)
Definition garbled_identity_blocks : list (list Z) :=
  [[0xFF; 0xFE; 0xFD; 0xFC]; [0x60; 0x10]].

(** A bus on which the first [k] transactions complete and every later
    one fails. *)
Definition ok_for (k : nat) : list event -> bool :=
  fun tr => (length tr <=? k)%nat.

(** A device that answers a firmware query with the bytes 0x60, 0x10. *)
Definition firmware_blocks : list (list Z) := [[0x60; 0x10]].

(** * Properties *)

(** ** Bytes and bytearrays *)

Lemma byte_range v : 0 <= byte v < 256.
Proof. unfold byte. apply Z.mod_pos_bound. lia. Qed.

Lemma byte_small v : 0 <= v < 256 -> byte v = v.
Proof. intros Hv. unfold byte. apply Z.mod_small. exact Hv. Qed.

Lemma byte_idemp v : byte (byte v) = byte v.
Proof. apply byte_small, byte_range. Qed.

Lemma byte_add_l a b : byte (byte a + b) = byte (a + b).
Proof. unfold byte. apply Z.add_mod_idemp_l. lia. Qed.

Lemma byte_neg v : byte (Z.lnot v + 1) = byte (- v).
Proof. f_equal. unfold Z.lnot. lia. Qed.

Lemma byte_opp_congr a b : byte a = byte b -> byte (- a) = byte (- b).
Proof.
  unfold byte. intros H.
  rewrite <- (Z.sub_0_l a), <- (Z.sub_0_l b).
  rewrite (Zminus_mod 0 a), (Zminus_mod 0 b), H. reflexivity.
Qed.

Lemma byte_land_255 v : byte (Z.land v 0xFF) = Z.land v 0xFF.
Proof.
  change 0xFF with (Z.ones 8). rewrite Z.land_ones by lia.
  change (2 ^ 8) with 256. apply byte_idemp.
Qed.

Lemma getitem_Some (b : list Z) i v : b !! i = Some v -> getitem b i = Ok v.
Proof. intros H. unfold getitem. rewrite H. reflexivity. Qed.

Lemma setitem_lt (b : list Z) i v :
  (i < length b)%nat -> setitem b i v = Ok (<[i := byte v]> b).
Proof.
  intros H. unfold setitem.
  destruct (Nat.ltb_spec i (length b)); [reflexivity | lia].
Qed.

(** ** The checksum loop *)

(** Over the indices [s, s + n) below 184 the loop adds the bytes at those
    indices, modulo 256, to the byte at index 184 and changes nothing
    else. *)
Lemma checksum_loop_range n : forall s (config : list Z) acc,
  (s + n <= 184)%nat ->
  config !! 184%nat = Some acc ->
  exists v,
    checksum_loop (seq s n) config = Ok (<[184%nat := v]> config) /\
    byte v = byte (acc + sum (take n (drop s config))).
Proof.
  induction n as [|n IH]; intros s config acc Hs Hacc.
  - exists acc. split.
    + simpl. rewrite list_insert_id by exact Hacc. reflexivity.
    + rewrite take_0. simpl. f_equal. lia.
  - assert (Hlen : (184 < length config)%nat)
      by (eapply lookup_lt_Some; exact Hacc).
    destruct (lookup_lt_is_Some_2 config s) as [c Hc]; [lia|].
    set (config' := <[184%nat := byte (acc + c)]> config).
    destruct (IH (S s) config' (byte (acc + c))) as (v & Hrun & Hv).
    + lia.
    + apply list_lookup_insert_eq. exact Hlen.
    + exists v. split.
      * cbn [seq checksum_loop].
        rewrite (getitem_Some _ _ _ Hacc), (getitem_Some _ _ _ Hc).
        cbn [rbind]. rewrite setitem_lt by exact Hlen. cbn [rbind].
        fold config'. rewrite Hrun. unfold config'.
        rewrite list_insert_insert_eq. reflexivity.
      * rewrite Hv. unfold config'.
        rewrite drop_insert_ge by lia.
        rewrite take_insert_ge by lia.
        rewrite (drop_S _ _ _ Hc). cbn [take sum foldr].
        rewrite byte_add_l. f_equal. unfold sum. lia.
Qed.

(** What lines 109 to 136 compute: the table with the byte at index 184
    replaced. *)
Lemma init_config_eq width height :
  init_config width height =
  Ok (<[184%nat := stored_checksum width height]>
        (bytearray (config_literal width height))).
Proof.
  unfold init_config, stored_checksum.
  set (c0 := bytearray (config_literal width height)).
  assert (Hlen : length c0 = 188%nat) by reflexivity.
  rewrite setitem_lt by lia. cbn [rbind].
  destruct (checksum_loop_range 184 0 (<[184%nat := byte 0]> c0) (byte 0))
    as (v & Hrun & Hv).
  - lia.
  - apply list_lookup_insert_eq. lia.
  - rewrite Hrun. cbn [rbind].
    rewrite list_insert_insert_eq.
    rewrite (getitem_Some _ _ v) by (apply list_lookup_insert_eq; lia).
    cbn [rbind]. rewrite setitem_lt by (rewrite length_insert; lia).
    rewrite list_insert_insert_eq. f_equal. f_equal.
    rewrite byte_neg.
    rewrite drop_0, take_insert_ge in Hv by lia.
    change (byte 0) with 0 in Hv. rewrite Z.add_0_l in Hv.
    apply byte_opp_congr. exact Hv.
Qed.

(** ** Running the driver *)

Lemma wf_inv st : wf st ->
  exists b0 b1 b2 b3 b4 b5, data_buf st = [b0; b1; b2; b3; b4; b5].
Proof.
  unfold wf.
  destruct (data_buf st) as [|b0 [|b1 [|b2 [|b3 [|b4 [|b5 [|b6 l]]]]]]];
    simpl; intros H; try discriminate.
  eauto 10.
Qed.

Lemma wf_new w h tr : wf (GT911_new w h tr).
Proof. reflexivity. Qed.

(** Replaces a state whose buffer has six bytes by its components. *)
Ltac open_state st Hwf :=
  let b0 := fresh "b0" in let b1 := fresh "b1" in let b2 := fresh "b2" in
  let b3 := fresh "b3" in let b4 := fresh "b4" in let b5 := fresh "b5" in
  let Hb := fresh "Hb" in
  destruct (wf_inv st Hwf) as (b0 & b1 & b2 & b3 & b4 & b5 & Hb);
  destruct st as [? ? ? ?]; simpl in Hb; subst.

Ltac exec_cbn :=
  cbn -[byte Z.land Z.shiftr Z.shiftl Z.lor Z.add Z.mul Z.of_nat].

(** Runs straight-line driver code on an opened state, splitting on the
    answer of the bus at every transaction. *)
Ltac exec :=
  unfold bind, buf_set, buf_get, mv_slice, i2c_writeto, i2c_readfrom_into,
    ret, raise, log, set_data_buf;
  exec_cbn;
  repeat (match goal with
          | |- context [if ?bus ?tr then _ else _] =>
              let E := fresh "Hbus" in destruct (bus tr) eqn:E
          end; exec_cbn).

(** The address bytes the accessors put into the scratch buffer are the
    big-endian encoding of the register address. *)
Lemma address_bytes addr :
  0 <= addr < 65536 ->
  [byte (Z.shiftr (Z.land addr 0xFF00) 8); byte (Z.land addr 0xFF)]
  = encode_address addr.
Proof.
  intros Ha. unfold encode_address. f_equal; [|f_equal; apply byte_land_255].
  change 0xFF00 with (Z.shiftl 0xFF 8).
  assert (Z.shiftr (Z.land addr (Z.shiftl 0xFF 8)) 8 = Z.shiftr addr 8) as ->.
  { rewrite Z.shiftr_land. rewrite Z.shiftr_shiftl_l by lia.
    change (Z.shiftl 0xFF (8 - 8)) with (Z.ones 8).
    rewrite Z.land_ones by lia. apply Z.mod_small.
    rewrite Z.shiftr_div_pow2 by lia. change (2 ^ 8) with 256.
    split; [apply Z.div_pos; lia | apply Z.div_lt_upper_bound; lia]. }
  apply byte_small. rewrite Z.shiftr_div_pow2 by lia. change (2 ^ 8) with 256.
  split; [apply Z.div_pos; lia | apply Z.div_lt_upper_bound; lia].
Qed.

(** Closes the goals [exec] leaves for an accessor. *)
Ltac close_outcome :=
  rewrite <- ?app_assoc in *; cbn [app] in *;
  split;
  [ reflexivity
  | first
      [ left; split; reflexivity
      | right; split; [reflexivity|]; split; [assumption|];
        eexists; split; cycle 1; [reflexivity | eexists; reflexivity] ] ].

Section Runs.

Variable bus_ok : list event -> bool.
Variable bus_data : list event -> nat -> Z.
Variable fl : Q -> Q.

Lemma outcome_ret {A} (v : A) st : wf st -> outcome bus_ok st [] v (ret v st).
Proof.
  intros Hwf. split; [exact Hwf|]. left. simpl.
  rewrite app_nil_r. split; reflexivity.
Qed.

Lemma outcome_conv {A} st f f' (v v' : A) p :
  outcome bus_ok st f v p -> f = f' -> v = v' -> outcome bus_ok st f' v' p.
Proof. intros H <- <-. exact H. Qed.

(** Sequencing: the continuation runs from a state whose trace is the
    old trace followed by the transactions of the first part. *)
Lemma outcome_bind {A B} (m : M A) (k : A -> M B) st f1 v1 f2 v2 :
  outcome bus_ok st f1 v1 (m st) ->
  (forall st1, wf st1 -> trace st1 = trace st ++ f1 ->
               outcome bus_ok st1 f2 v2 (k v1 st1)) ->
  outcome bus_ok st (f1 ++ f2) v2 (bind m k st).
Proof.
  unfold outcome, bind.
  destruct (m st) as [r st1]. simpl.
  intros (Hwf & [[-> Htr] | (-> & Hbus & ev & Hpre & Htr)]) Hk.
  - specialize (Hk st1 Hwf Htr).
    destruct (k v1 st1) as [r2 st2]. simpl in *.
    destruct Hk as (Hwf2 & [[-> Htr2] | (-> & Hbus2 & ev & Hpre & Htr2)]).
    + split; [exact Hwf2|]. left. split; [reflexivity|].
      rewrite Htr2, Htr, app_assoc. reflexivity.
    + split; [exact Hwf2|]. right. split; [reflexivity|].
      split; [exact Hbus2|]. exists (f1 ++ ev).
      split; [apply prefix_app; exact Hpre|].
      rewrite Htr2, Htr, app_assoc. reflexivity.
  - split; [exact Hwf|]. right. split; [reflexivity|].
    split; [exact Hbus|]. exists ev.
    split; [apply prefix_app_r; exact Hpre | exact Htr].
Qed.

Lemma status_get_outcome st :
  wf st ->
  outcome bus_ok st status_query (status_of bus_data (trace st))
    (status_get bus_ok bus_data st).
Proof.
  intros Hwf. open_state st Hwf.
  unfold status_get, outcome, status_of, status_query.
  rewrite <- (address_bytes GT911_READ_COORD_ADDR) by (compute; intuition congruence).
  exec; close_outcome.
Qed.

Lemma status_set_outcome value st :
  wf st ->
  outcome bus_ok st
    [Writeto GT911_I2C_SLAVE_ADDR
       (encode_address GT911_READ_COORD_ADDR ++ [byte value])] tt
    (status_set bus_ok value st).
Proof.
  intros Hwf. open_state st Hwf.
  unfold status_set, outcome.
  rewrite <- (address_bytes GT911_READ_COORD_ADDR) by (compute; intuition congruence).
  exec; close_outcome.
Qed.

Lemma read_point_outcome (i : nat) st :
  wf st -> (i < 16)%nat ->
  outcome bus_ok st (point_query i) (point_at bus_data (trace st ++ point_query i))
    (read_point bus_ok bus_data (Z.of_nat i) st).
Proof.
  intros Hwf Hi. open_state st Hwf.
  unfold read_point, outcome, point_at, point_query, decode_u16_le.
  rewrite <- (address_bytes (GT911_POINT1_X_ADDR + Z.of_nat i * 8))
    by (unfold GT911_POINT1_X_ADDR; lia).
  exec; close_outcome.
Qed.

Lemma points_read_length tr l :
  length (points_read bus_data tr l) = length l.
Proof.
  revert tr. induction l as [|i l IH]; intros tr; simpl;
    [reflexivity | rewrite IH; reflexivity].
Qed.

Lemma read_points_outcome l : forall coord_x coord_y st,
  wf st -> Forall (fun i => (i < 16)%nat) l ->
  outcome bus_ok st (points_query l)
    (coord_x ++ (points_read bus_data (trace st) l).*1,
     coord_y ++ (points_read bus_data (trace st) l).*2)
    (read_points bus_ok bus_data l coord_x coord_y st).
Proof.
  induction l as [|i l IH]; intros cx cy st Hwf Hl.
  - eapply outcome_conv; [apply outcome_ret; exact Hwf | reflexivity |].
    cbn. rewrite !app_nil_r. reflexivity.
  - inversion Hl as [|? ? Hi Hl']; subst. cbn [read_points].
    eapply outcome_conv.
    + eapply outcome_bind; [apply read_point_outcome; assumption|].
      intros st1 Hwf1 Htr1.
      eapply outcome_conv; [apply IH; assumption | reflexivity |].
      rewrite Htr1. reflexivity.
    + reflexivity.
    + cbn [points_read fmap list_fmap fst snd].
      rewrite <- !app_assoc. reflexivity.
Qed.

Lemma land_15_range s : 0 <= Z.land s 0x0F < 16.
Proof.
  change 0x0F with (Z.ones 4). rewrite Z.land_ones by lia.
  apply Z.mod_pos_bound. lia.
Qed.

Lemma Forall_seq_lt n : Forall (fun i => (i < n)%nat) (seq 0 n).
Proof. apply Forall_forall. intros i Hi. apply elem_of_seq in Hi. lia. Qed.

Lemma bind_ret_l {A B} (a : A) (k : A -> M B) st : bind (ret a) k st = k a st.
Proof. reflexivity. Qed.

(** The complete behaviour of one poll. *)
Lemma _get_coords_outcome st :
  wf st ->
  outcome bus_ok st (poll_events bus_data (trace st))
    (poll_value bus_data fl (trace st))
    (_get_coords bus_ok bus_data fl st).
Proof.
  intros Hwf. unfold _get_coords, poll_events, poll_value.
  set (status := status_of bus_data (trace st)).
  eapply outcome_bind; [apply status_get_outcome; exact Hwf|].
  intros st1 Hwf1 Htr1. fold status.
  destruct (Z.land status 0x80 =? 0) eqn:E7; cbn [negb].
  { apply outcome_ret. exact Hwf1. }
  destruct (Z.land status 0x0F =? 0) eqn:En; cbn [negb].
  { apply Z.eqb_eq in En. rewrite En.
    eapply outcome_conv.
    - eapply outcome_bind; [apply status_set_outcome; exact Hwf1|].
      intros st2 Hwf2 _. apply outcome_ret. exact Hwf2.
    - reflexivity.
    - reflexivity. }
  apply Z.eqb_neq in En.
  pose proof (land_15_range status) as Hn.
  set (n := Z.to_nat (Z.land status 0x0F)) in *.
  assert (Hlen : forall (f : Z * Z -> Z) tr,
             (len ([] ++ (f <$> points_read bus_data tr (seq 0 n))) =? 0) = false).
  { intros f tr. apply Z.eqb_neq. unfold len. cbn [app].
    rewrite length_fmap, points_read_length, length_seq. lia. }
  eapply outcome_conv.
  - eapply outcome_bind.
    + apply (read_points_outcome (seq 0 n) [] [] st1 Hwf1).
      eapply Forall_impl; [apply Forall_seq_lt|]. simpl. lia.
    + intros st2 Hwf2 _. cbn [fst snd]. unfold truediv.
      rewrite !Hlen, !bind_ret_l.
      eapply outcome_bind; [apply status_set_outcome; exact Hwf2|].
      intros st3 Hwf3 _. apply outcome_ret. exact Hwf3.
  - reflexivity.
  - rewrite Htr1. reflexivity.
Qed.

End Runs.

(** ** Float division of small integers *)

Section FloatDivision.

Variable fl : Q -> Q.
Hypothesis Hfl : float_format fl.

Lemma fl_proper p q : (p == q)%Q -> (fl p == fl q)%Q.
Proof.
  intros Hpq. destruct Hfl as [Hmono _].
  apply Qle_antisym; apply Hmono; rewrite Hpq; apply Qle_refl.
Qed.

(** [int(a / b)] is the floor of the quotient when [a] is below [2^20],
    [b] below 16 and the quotient below [2^16]: the rounded quotient
    cannot reach the next integer. *)
Lemma int_truediv_floor a b :
  0 <= a < 2 ^ 20 -> 0 < b < 16 -> a / b < 2 ^ 16 ->
  int_truediv fl a b = a / b.
Proof.
  intros Ha Hb Hk. destruct Hfl as [Hmono Hexact].
  unfold int_truediv. set (k := a / b) in *.
  assert (Hk0 : 0 <= k) by (apply Z.div_pos; lia).
  assert (Hdiv : b * k <= a < b * k + b).
  { unfold k. pose proof (Z.mul_div_le a b) as H1.
    pose proof (Z.mul_succ_div_gt a b) as H2. lia. }
  destruct (Hexact a) as [Hea _]; [lia|].
  destruct (Hexact b) as [Heb _]; [lia|].
  destruct (Hexact k) as [Hek _]; [lia|].
  destruct (Hexact (16 * k + 15)) as [_ Heu]; [lia|].
  assert (Hq : (fl (fl (inject_Z a) / fl (inject_Z b))
                == fl (inject_Z a / inject_Z b))%Q).
  { apply fl_proper. rewrite Hea, Heb. reflexivity. }
  assert (Hbpos : (0 < inject_Z b)%Q) by (unfold Qlt; simpl; lia).
  assert (Hlo : (inject_Z k <= inject_Z a / inject_Z b)%Q).
  { apply Qle_shift_div_l; [exact Hbpos|].
    rewrite <- inject_Z_mult, <- Zle_Qle. lia. }
  assert (Hhi : (inject_Z a / inject_Z b <= (16 * k + 15) # 16)%Q).
  { apply Qle_shift_div_r; [exact Hbpos|].
    unfold Qle, Qmult, inject_Z. simpl. nia. }
  apply Hmono in Hlo, Hhi. rewrite Hek in Hlo. rewrite Heu in Hhi.
  rewrite <- Hq in Hlo, Hhi.
  set (r := fl (fl (inject_Z a) / fl (inject_Z b))%Q) in *.
  assert (Hr0 : Qle_bool 0 r = true).
  { apply Qle_bool_iff. eapply Qle_trans; [|exact Hlo].
    unfold Qle, inject_Z. simpl. lia. }
  unfold int_of_float. rewrite Hr0.
  apply Qfloor_resp_le in Hlo, Hhi. rewrite Qfloor_Z in Hlo.
  assert (Qfloor ((16 * k + 15) # 16) = k) as Hf.
  { unfold Qfloor. symmetry. apply Z.div_unique with (r := 15); lia. }
  lia.
Qed.

End FloatDivision.

(** The fixed-point format satisfies the assumptions. *)
Lemma fl_fixed_format : float_format fl_fixed.
Proof.
  split.
  - intros p q Hpq. unfold fl_fixed, Qle. cbn [Qnum Qden].
    assert (Qfloor (p * 1024) <= Qfloor (q * 1024)).
    { apply Qfloor_resp_le. apply Qmult_le_compat_r; [exact Hpq|].
      unfold Qle. simpl. lia. }
    lia.
  - intros m _. split; unfold fl_fixed, Qeq, Qfloor, Qmult, inject_Z; simpl.
    + rewrite Z.mul_1_r, Z.div_1_r. lia.
    + replace (m * 1024) with ((m * 64) * 16) by lia.
      rewrite Z.div_mul by lia. lia.
Qed.

(** ** The configuration blob *)

Lemma config_literal_bytes w h :
  bytearray (config_literal w h) = config_literal w h.
Proof.
  unfold bytearray, config_literal. cbn [app map].
  rewrite !byte_land_255. reflexivity.
Qed.

(** Exposes the table with the four dimension bytes as variables. *)
Ltac open_config w h :=
  rewrite ?config_literal_bytes; unfold config_literal; cbn [app];
  change (Z.shiftr (Z.land GT911_REG_CONFIG_DATA 0xFF00) 8) with 128;
  change (Z.land GT911_REG_CONFIG_DATA 0xFF) with 71;
  change (Z.shiftl 1 2) with 4;
  generalize (Z.land w 0xFF) (Z.land (Z.shiftr w 8) 0xFF)
             (Z.land h 0xFF) (Z.land (Z.shiftr h 8) 0xFF);
  intros ? ? ? ?.

(** C2: building the configuration buffer, checksum included, never
    raises: for every width and height the construction at the top of
    [init] completes, and its result has 188 bytes. *)
Theorem init_config_total :
  forall w h : Z, exists config,
    init_config w h = Ok config /\ length config = 188%nat.
Proof.
  intros w h. eexists. split; [apply init_config_eq|].
  rewrite length_insert. reflexivity.
Qed.

(** X14: what the loop of [init] does establish: the first 185 bytes of
    the upload buffer, address bytes included, sum to zero modulo 256. *)
Lemma init_config_buffer_sum :
  forall w h : Z, exists config,
    init_config w h = Ok config /\ byte (sum (take 185 config)) = 0.
Proof.
  intros w h. eexists. split; [apply init_config_eq|].
  unfold stored_checksum. open_config w h.
  cbn [take drop insert list_insert sum foldr].
  unfold byte. Z.to_euclidean_division_equations. lia.
Qed.

(** For every width and height the blob misses the documented invariant
    in the same way: its byte 184 is the constant 0xD6 of the table, the
    documented checksum of the 184 bytes before it is 0xC7, and the first
    185 bytes sum to 15 modulo 256. *)
Lemma init_config_blob_sum :
  forall w h : Z, exists config,
    init_config w h = Ok config /\
    blob_of config !! 184%nat = Some 0xD6 /\
    spec_checksum (take 184 (blob_of config)) = 0xC7 /\
    byte (sum (take 185 (blob_of config))) = 15.
Proof.
  intros w h. eexists. split; [apply init_config_eq|].
  unfold stored_checksum, spec_checksum, blob_of. open_config w h.
  cbn [take drop insert list_insert sum foldr].
  split; [reflexivity|].
  unfold byte, Z.lnot. split; Z.to_euclidean_division_equations; lia.
Qed.

(** C1 (failing input 480 x 320): the buffer [init] builds for a panel of
    480 by 320 has the computed byte 0x24 at its index 184, which is
    offset 182 of the blob; byte 184 of the blob is 0xD6 while the
    documented checksum of the 184 bytes before it is 0xC7, and the blob
    does not satisfy the checksum invariant. *)
Theorem init_config_checksum_480_320 :
  exists config,
    init_config 480 320 = Ok config /\
    config !! 184%nat = Some 0x24 /\
    blob_of config !! 182%nat = Some 0x24 /\
    blob_of config !! 184%nat = Some 0xD6 /\
    spec_checksum (take 184 (blob_of config)) = 0xC7 /\
    byte (sum (take 185 (blob_of config))) = 15 /\
    ~ checksum_invariant (blob_of config).
Proof.
  eexists. split; [vm_compute; reflexivity|].
  repeat (split; [vm_compute; reflexivity|]).
  intros [_ H]. vm_compute in H. discriminate H.
Qed.

(** C4 (refuted as stated): for a panel of 480 by 320 the blob does not
    have the documented layout: offset 3 of the blob holds the low byte
    of the height.  The whole upload buffer does not have it either: it
    has 188 bytes. *)
Lemma documented_layout_fails_480_320 :
  exists config,
    init_config 480 320 = Ok config /\
    blob_of config !! 3%nat = Some (Z.land 320 0xFF) /\
    ~ documented_layout 480 320 (blob_of config) /\
    ~ documented_layout 480 320 config.
Proof.
  eexists. split; [vm_compute; reflexivity|].
  split; [vm_compute; reflexivity|].
  split.
  - intros (_ & H & _). vm_compute in H. discriminate H.
  - intros (H & _). vm_compute in H. discriminate H.
Qed.

(** The layout of the upload buffer: the address of register 0x8047, the
    dimensions little-endian at the indices 3 to 6, the refresh flag 1
    at the end, and at every other index except 184 the constant of the
    table. *)
Lemma init_config_layout :
  forall w h : Z, exists config,
    init_config w h = Ok config /\
    length config = 188%nat /\
    take 2 config = encode_address GT911_REG_CONFIG_DATA /\
    config !! 3%nat = Some (Z.land w 0xFF) /\
    config !! 4%nat = Some (Z.land (Z.shiftr w 8) 0xFF) /\
    config !! 5%nat = Some (Z.land h 0xFF) /\
    config !! 6%nat = Some (Z.land (Z.shiftr h 8) 0xFF) /\
    config !! 187%nat = Some 1 /\
    (forall i : nat,
        i <> 3%nat -> i <> 4%nat -> i <> 5%nat -> i <> 6%nat ->
        i <> 184%nat ->
        config !! i = config_literal 0 0 !! i).
Proof.
  intros w h. eexists. split; [apply init_config_eq|].
  rewrite length_insert, config_literal_bytes.
  split; [reflexivity|].
  repeat (split; [reflexivity|]).
  intros i H3 H4 H5 H6 H184.
  rewrite list_lookup_insert_ne by congruence.
  do 7 (destruct i as [|i]; [reflexivity || congruence|]).
  reflexivity.
Qed.

(** ** Polling *)

(** On a bus without failures a computation requests all its transactions
    and returns its value. *)
Lemma outcome_ok {A} bus_ok st f (v : A) p :
  (forall tr, bus_ok tr = true) ->
  outcome bus_ok st f v p ->
  exists st', p = (Ok v, st') /\ trace st' = trace st ++ f /\ wf st'.
Proof.
  intros Hok (Hwf & [[Hr Htr] | (_ & Hbus & _)]).
  - destruct p as [r st']. simpl in *. subst r. eauto.
  - rewrite Hok in Hbus. discriminate Hbus.
Qed.

Lemma _get_coords_ok bus_ok bus_data fl st :
  (forall tr, bus_ok tr = true) -> wf st ->
  exists st',
    _get_coords bus_ok bus_data fl st
    = (Ok (poll_value bus_data fl (trace st)), st') /\
    trace st' = trace st ++ poll_events bus_data (trace st).
Proof.
  intros Hok Hwf.
  destruct (outcome_ok _ _ _ _ _ Hok (_get_coords_outcome bus_ok bus_data fl st Hwf))
    as (st' & Heq & Htr & _).
  eauto.
Qed.

Lemma block_reads_app tr1 tr2 :
  block_reads (tr1 ++ tr2) = (block_reads tr1 + block_reads tr2)%nat.
Proof. unfold block_reads. rewrite filter_app, length_app. reflexivity. Qed.

Lemma block_reads_points_query l : block_reads (points_query l) = length l.
Proof.
  induction l as [|i l IH]; [reflexivity|].
  change (points_query (i :: l)) with (point_query i ++ points_query l).
  rewrite block_reads_app, IH. reflexivity.
Qed.

(** C5: on a bus without failures, a poll that reads a status byte with
    bit 7 clear returns no touch after the status query alone, without
    any block read or acknowledgement; a poll that reads a status byte
    with bit 7 set and a point count of zero returns no touch after the
    status query and exactly one acknowledgement write of zero. *)
Theorem poll_status_acknowledgement bus_ok bus_data fl st :
  (forall tr, bus_ok tr = true) -> wf st ->
  let status := status_of bus_data (trace st) in
  (Z.land status 0x80 = 0 ->
   exists st',
     _get_coords bus_ok bus_data fl st = (Ok None, st') /\
     trace st' = trace st ++ status_query) /\
  (Z.land status 0x80 <> 0 -> Z.land status 0x0F = 0 ->
   exists st',
     _get_coords bus_ok bus_data fl st = (Ok None, st') /\
     trace st' = trace st ++ status_query ++ [status_clear]).
Proof.
  intros Hok Hwf status.
  destruct (_get_coords_ok bus_ok bus_data fl st Hok Hwf) as (st' & Heq & Htr).
  unfold poll_value, poll_events in *. fold status in Heq, Htr.
  split.
  - intros H7. rewrite H7 in Heq, Htr. cbn [Z.eqb negb] in Heq, Htr.
    rewrite app_nil_r in Htr. exists st'. split; assumption.
  - intros H7 Hn. apply Z.eqb_neq in H7. rewrite H7, Hn in Heq, Htr.
    cbn [Z.eqb negb] in Heq, Htr. exists st'. split; [exact Heq | exact Htr].
Qed.

(** C10: on a bus without failures, a poll that reads a status byte with
    bit 7 set requests exactly as many point blocks as the low four bits
    of the status say, whatever that number up to 15 is: the trace grows
    by the status query, the blocks of the points 0 to n - 1 and the
    acknowledgement, and it has n block reads. *)
Theorem poll_point_count_unclamped bus_ok bus_data fl st :
  (forall tr, bus_ok tr = true) -> wf st ->
  let status := status_of bus_data (trace st) in
  let n := Z.to_nat (Z.land status 0x0F) in
  Z.land status 0x80 <> 0 ->
  exists v st',
    _get_coords bus_ok bus_data fl st = (Ok v, st') /\
    trace st' =
      trace st ++ status_query ++ points_query (seq 0 n) ++ [status_clear] /\
    block_reads (status_query ++ points_query (seq 0 n) ++ [status_clear]) = n.
Proof.
  intros Hok Hwf status n H7.
  destruct (_get_coords_ok bus_ok bus_data fl st Hok Hwf) as (st' & Heq & Htr).
  unfold poll_events in Htr. fold status in Htr. fold n in Htr.
  apply Z.eqb_neq in H7. rewrite H7 in Htr. cbn [negb] in Htr.
  eexists. exists st'. split; [exact Heq|]. split; [exact Htr|].
  rewrite !block_reads_app, block_reads_points_query, length_seq.
  change (block_reads status_query) with 0%nat.
  change (block_reads [status_clear]) with 0%nat. lia.
Qed.

(** *** Decoding a point block *)

Lemma decode_u16_le_add low high :
  0 <= low < 256 -> decode_u16_le low high = low + 256 * high.
Proof.
  intros Hlow. unfold decode_u16_le.
  rewrite Z.shiftl_mul_pow2 by lia.
  assert (Hdisj : Z.land low (high * 2 ^ 8) = 0).
  { apply Z.bits_inj'. intros n Hn.
    rewrite Z.land_spec, Z.bits_0.
    destruct (Z.lt_ge_cases n 8) as [Hlt | Hge].
    - rewrite Z.mul_pow2_bits_low by lia. apply andb_false_r.
    - rewrite <- (Z.mod_small low (2 ^ 8)) by (change (2 ^ 8) with 256; lia).
      rewrite Z.mod_pow2_bits_high by lia. reflexivity. }
  rewrite <- Z.lxor_lor by exact Hdisj.
  rewrite <- Z.add_nocarry_lxor by exact Hdisj. lia.
Qed.

Lemma decode_u16_le_range low high :
  0 <= low < 256 -> 0 <= high < 256 ->
  0 <= decode_u16_le low high <= 65535.
Proof. intros Hl Hh. rewrite decode_u16_le_add by exact Hl. lia. Qed.

Lemma points_read_range bus_data l : forall tr,
  Forall (fun p : Z * Z => 0 <= p.1 <= 65535 /\ 0 <= p.2 <= 65535)
    (points_read bus_data tr l).
Proof.
  induction l as [|i l IH]; intros tr; cbn [points_read].
  - constructor.
  - constructor; [|apply IH].
    unfold point_at. cbn [fst snd].
    split; apply decode_u16_le_range; apply byte_range.
Qed.

Lemma points_query_cons i l :
  points_query (i :: l) = point_query i ++ points_query l.
Proof. reflexivity. Qed.

(** Block [i] of a run of [n] blocks: entry [2 * i] of the trace is the
    write of its address, entry [2 * i + 1] the read of six bytes. *)
Lemma points_query_lookup n : forall s i,
  (i < n)%nat ->
  points_query (seq s n) !! (2 * i)%nat
  = Some (Writeto GT911_I2C_SLAVE_ADDR
            (encode_address (GT911_POINT1_X_ADDR + Z.of_nat (s + i) * 8))) /\
  points_query (seq s n) !! (2 * i + 1)%nat
  = Some (ReadfromInto GT911_I2C_SLAVE_ADDR 6).
Proof.
  induction n as [|n IH]; intros s i Hi; [lia|].
  cbn [seq]. rewrite points_query_cons.
  destruct i as [|i].
  - rewrite Nat.add_0_r. split; reflexivity.
  - replace (2 * S i)%nat with (S (S (2 * i))) by lia.
    replace (S (S (2 * i)) + 1)%nat with (S (S (2 * i + 1))) by lia.
    replace (s + S i)%nat with (S s + i)%nat by lia.
    cbn [point_query app lookup list_lookup].
    apply IH. lia.
Qed.

(** Point [i] of a run is decoded from the block delivered by the read
    that ends the query of block [i]. *)
Lemma points_read_lookup bus_data n : forall s tr i,
  (i < n)%nat ->
  points_read bus_data tr (seq s n) !! i
  = Some (point_at bus_data (tr ++ points_query (seq s (S i)))).
Proof.
  induction n as [|n IH]; intros s tr i Hi; [lia|].
  cbn [seq points_read].
  destruct i as [|i].
  - cbn [seq lookup list_lookup]. rewrite points_query_cons.
    change (points_query []) with (@nil event). rewrite app_nil_r. reflexivity.
  - cbn [lookup list_lookup]. rewrite IH by lia.
    change (seq s (S (S i))) with (s :: seq (S s) (S i)).
    rewrite points_query_cons, app_assoc. reflexivity.
Qed.

(** *** The mean of the decoded points *)

Lemma sum_bound B l :
  Forall (fun x => 0 <= x <= B) l -> 0 <= sum l <= B * len l.
Proof.
  unfold len. induction 1 as [|x l Hx _ IH]; cbn [sum foldr length].
  - lia.
  - unfold sum in IH. lia.
Qed.

Lemma mean_floor fl l :
  float_format fl -> l <> [] -> (length l < 16)%nat ->
  Forall (fun x => 0 <= x <= 65535) l ->
  int_truediv fl (sum l) (len l) = sum l / len l.
Proof.
  intros Hfl Hne Hlen Hl.
  pose proof (sum_bound _ _ Hl) as Hs.
  assert (0 < len l < 16).
  { unfold len. destruct l; [congruence|]. cbn [length] in *. lia. }
  apply int_truediv_floor; [exact Hfl | lia | lia |].
  apply Z.div_lt_upper_bound; lia.
Qed.

(** C6: on a bus without failures and with a float format as assumed, a
    poll that reads a status byte with bit 7 set and a point count other
    than zero returns the floor of the arithmetic mean of the decoded
    points, coordinate by coordinate. *)
Theorem poll_mean bus_ok bus_data fl st :
  float_format fl -> (forall tr, bus_ok tr = true) -> wf st ->
  let status := status_of bus_data (trace st) in
  let n := Z.to_nat (Z.land status 0x0F) in
  let pts := points_read bus_data (trace st ++ status_query) (seq 0 n) in
  Z.land status 0x80 <> 0 -> n <> 0%nat ->
  length pts = n /\
  exists st',
    _get_coords bus_ok bus_data fl st
    = (Ok (Some (sum pts.*1 / len pts.*1, sum pts.*2 / len pts.*2)), st').
Proof.
  intros Hfl Hok Hwf status n pts H7 Hn.
  assert (Hlen : length pts = n)
    by (unfold pts; rewrite points_read_length, length_seq; reflexivity).
  split; [exact Hlen|].
  destruct (_get_coords_ok bus_ok bus_data fl st Hok Hwf) as (st' & Heq & _).
  exists st'. rewrite Heq. do 2 f_equal.
  unfold poll_value. fold status.
  apply Z.eqb_neq in H7. rewrite H7. cbn [negb].
  pose proof (land_15_range status) as Hrange.
  assert ((Z.land status 0x0F =? 0) = false) as ->
    by (apply Z.eqb_neq; unfold n in Hn; lia).
  cbn [negb]. fold n. fold pts.
  assert (Hpts : Forall (fun p : Z * Z => 0 <= p.1 <= 65535 /\ 0 <= p.2 <= 65535) pts)
    by apply points_read_range.
  assert (Hlt : (n < 16)%nat) by (unfold n; lia).
  do 2 f_equal; apply mean_floor; try exact Hfl.
  - intros E. apply (f_equal length) in E. rewrite length_fmap in E.
    cbn in E. lia.
  - rewrite length_fmap. lia.
  - apply Forall_fmap. eapply Forall_impl; [exact Hpts|].
    intros p [Hp _]. exact Hp.
  - intros E. apply (f_equal length) in E. rewrite length_fmap in E.
    cbn in E. lia.
  - rewrite length_fmap. lia.
  - apply Forall_fmap. eapply Forall_impl; [exact Hpts|].
    intros p [_ Hp]. exact Hp.
Qed.

(** C7: on a bus without failures, a poll that reads a status byte with
    bit 7 set and a point count n other than zero requests, for every
    index i below n, the write of the two address bytes of register
    0x8150 + i * 8 followed by a read of six bytes, and averages the n
    points whose coordinates are the little-endian 16-bit values in the
    bytes 0 to 3 of the blocks delivered; the bytes 4 and 5 are not
    used. *)
Theorem poll_point_blocks bus_ok bus_data fl st :
  (forall tr, bus_ok tr = true) -> wf st ->
  let status := status_of bus_data (trace st) in
  let n := Z.to_nat (Z.land status 0x0F) in
  Z.land status 0x80 <> 0 -> n <> 0%nat ->
  exists pts st',
    _get_coords bus_ok bus_data fl st
    = (Ok (Some (int_truediv fl (sum pts.*1) (len pts.*1),
                 int_truediv fl (sum pts.*2) (len pts.*2))), st') /\
    trace st' =
      trace st ++ status_query ++ points_query (seq 0 n) ++ [status_clear] /\
    length pts = n /\
    forall i : nat, (i < n)%nat ->
      points_query (seq 0 n) !! (2 * i)%nat
      = Some (Writeto GT911_I2C_SLAVE_ADDR
                (encode_address (GT911_POINT1_X_ADDR + Z.of_nat i * 8))) /\
      length (encode_address (GT911_POINT1_X_ADDR + Z.of_nat i * 8)) = 2%nat /\
      points_query (seq 0 n) !! (2 * i + 1)%nat
      = Some (ReadfromInto GT911_I2C_SLAVE_ADDR 6) /\
      let block :=
        bus_data (trace st ++ status_query ++ points_query (seq 0 (S i))) in
      pts !! i
      = Some (decode_u16_le (byte (block 0%nat)) (byte (block 1%nat)),
              decode_u16_le (byte (block 2%nat)) (byte (block 3%nat))).
Proof.
  intros Hok Hwf status n H7 Hn.
  destruct (_get_coords_ok bus_ok bus_data fl st Hok Hwf) as (st' & Heq & Htr).
  unfold poll_value in Heq. unfold poll_events in Htr.
  fold status in Heq, Htr.
  apply Z.eqb_neq in H7. rewrite H7 in Heq, Htr. cbn [negb] in Heq, Htr.
  pose proof (land_15_range status) as Hrange.
  assert ((Z.land status 0x0F =? 0) = false) as Hz
    by (apply Z.eqb_neq; unfold n in Hn; lia).
  rewrite Hz in Heq. cbn [negb] in Heq. fold n in Heq, Htr.
  exists (points_read bus_data (trace st ++ status_query) (seq 0 n)), st'.
  split; [exact Heq|]. split; [exact Htr|].
  split; [rewrite points_read_length, length_seq; reflexivity|].
  intros i Hi.
  destruct (points_query_lookup n 0 i Hi) as [Hw Hr].
  split; [exact Hw|]. split; [reflexivity|]. split; [exact Hr|].
  cbn zeta. rewrite points_read_lookup by exact Hi.
  rewrite <- app_assoc. reflexivity.
Qed.

(** *** The place of the acknowledgement *)

Lemma status_clear_not_in_points l : status_clear ∉ points_query l.
Proof.
  induction l as [|i l IH]; [apply not_elem_of_nil|].
  rewrite points_query_cons. unfold point_query.
  cbn [app]. intros H.
  apply elem_of_cons in H as [H | H]; [discriminate H|].
  apply elem_of_cons in H as [H | H]; [discriminate H|].
  exact (IH H).
Qed.

Lemma status_clear_not_in_query : status_clear ∉ status_query.
Proof.
  unfold status_query. intros H.
  apply elem_of_cons in H as [H | H]; [discriminate H|].
  apply elem_of_cons in H as [H | H]; [discriminate H|].
  apply elem_of_nil in H. exact H.
Qed.

(** An element that closes a list it does not otherwise occur in is found
    at one place only. *)
Lemma last_occurrence {A} (x : A) l : forall pre post,
  x ∉ l -> pre ++ x :: post = l ++ [x] -> pre = l /\ post = [].
Proof.
  induction l as [|a l IH]; intros pre post Hx Heq.
  - destruct pre as [|p pre]; cbn in Heq.
    + injection Heq as ->. split; reflexivity.
    + injection Heq as _ Heq. destruct pre; discriminate Heq.
  - apply not_elem_of_cons in Hx as [Hxa Hx].
    destruct pre as [|p pre]; cbn in Heq.
    + injection Heq as Heq _. congruence.
    + injection Heq as -> Heq.
      destruct (IH pre post Hx Heq) as [-> ->]. split; reflexivity.
Qed.

(** C8: in every execution of a poll, whatever the bus does, an
    acknowledgement write is the last transaction of the poll and comes
    after the status query and the queries of all the n point blocks;
    and on a bus without failures a poll that reads a status byte with
    bit 7 set does end with the acknowledgement. *)
Theorem poll_acknowledges_last bus_ok bus_data fl st :
  wf st ->
  let status := status_of bus_data (trace st) in
  let n := Z.to_nat (Z.land status 0x0F) in
  let st' := (_get_coords bus_ok bus_data fl st).2 in
  (forall pre post,
      trace st' = trace st ++ pre ++ status_clear :: post ->
      pre = status_query ++ points_query (seq 0 n) /\ post = []) /\
  ((forall tr, bus_ok tr = true) -> Z.land status 0x80 <> 0 ->
   trace st' =
     trace st ++ (status_query ++ points_query (seq 0 n)) ++ [status_clear]).
Proof.
  intros Hwf status n st'.
  pose proof (_get_coords_outcome bus_ok bus_data fl st Hwf) as Hout.
  split.
  - intros pre post Htr.
    assert (exists ev, ev `prefix_of` poll_events bus_data (trace st) /\
                       trace st' = trace st ++ ev) as (ev & [k Hk] & Hev).
    { destruct Hout as (_ & [[_ H] | (_ & _ & ev & Hpre & H)]).
      - exists (poll_events bus_data (trace st)). split; [reflexivity | exact H].
      - exists ev. split; assumption. }
    rewrite Hev in Htr. apply app_inv_head in Htr. subst ev.
    unfold poll_events in Hk. fold status in Hk. fold n in Hk.
    destruct (negb (Z.land status 0x80 =? 0)).
    + rewrite <- !app_assoc in Hk. cbn [app] in Hk.
      rewrite (app_assoc status_query) in Hk. symmetry in Hk.
      apply last_occurrence in Hk.
      * destruct Hk as [-> Hk]. apply app_eq_nil in Hk as [-> _].
        split; reflexivity.
      * apply not_elem_of_app. split;
          [apply status_clear_not_in_query | apply status_clear_not_in_points].
    + exfalso. apply status_clear_not_in_query.
      rewrite app_nil_r in Hk. rewrite Hk.
      rewrite <- app_assoc. apply elem_of_app. right.
      apply elem_of_app. left. apply elem_of_cons. left. reflexivity.
  - intros Hok H7.
    destruct (outcome_ok _ _ _ _ _ Hok Hout) as (st1 & Heq & Htr & _).
    unfold st'. rewrite Heq. cbn [snd]. rewrite Htr.
    unfold poll_events. fold status. fold n.
    apply Z.eqb_neq in H7. rewrite H7. cbn [negb].
    rewrite <- app_assoc. reflexivity.
Qed.

(** *** Commands *)

(** C9: sending a command requests exactly one transaction, the write of
    three bytes: the address 0x8040 of the command register, high byte
    first, and the command byte. *)
Theorem set_command_register_write bus_ok st command :
  wf st -> 0 <= command < 256 ->
  encode_address GT911_REG_COMMAND = [0x80; 0x40] /\
  trace (set_command_register bus_ok command st).2
  = trace st ++ [Writeto GT911_I2C_SLAVE_ADDR [0x80; 0x40; command]].
Proof.
  intros Hwf Hc. split; [reflexivity|].
  open_state st Hwf. unfold set_command_register.
  change (Z.shiftr (Z.land GT911_REG_COMMAND 0xFF00) 8) with 0x80.
  change (Z.land GT911_REG_COMMAND 0xFF) with 0x40.
  change (byte 0x80) with 0x80. change (byte 0x40) with 0x40.
  exec; rewrite (byte_small command Hc); reflexivity.
Qed.

(** ** Initialization *)

Section Init.

Variable bus_ok : list event -> bool.
Variable bus_data : list event -> nat -> Z.
Variable utf8_check : list Z -> bool.

(** Once the buffer is built, [init] is the four bus operations in
    sequence. *)
Lemma init_after_config st config :
  init_config (width st) (height st) = Ok config ->
  init bus_ok bus_data utf8_check st
  = bind (product_id bus_ok bus_data utf8_check)
      (fun _ => bind (firmware bus_ok bus_data)
         (fun _ => bind (i2c_writeto bus_ok GT911_I2C_SLAVE_ADDR config)
            (fun _ => set_command_register bus_ok 0x00))) st.
Proof. intros H. unfold init. unfold bind at 1. rewrite H. reflexivity. Qed.

Lemma firmware_outcome st :
  wf st ->
  exists v, outcome bus_ok st firmware_query v (firmware bus_ok bus_data st).
Proof.
  intros Hwf. open_state st Hwf.
  unfold firmware, outcome, firmware_query.
  rewrite <- (address_bytes GT911_REG_FW_VER) by (compute; intuition congruence).
  eexists. exec; close_outcome.
Qed.

Lemma set_command_register_outcome command st :
  wf st ->
  outcome bus_ok st [command_write (byte command)] tt
    (set_command_register bus_ok command st).
Proof.
  intros Hwf. open_state st Hwf.
  unfold set_command_register, outcome, command_write.
  rewrite <- (address_bytes GT911_REG_COMMAND) by (compute; intuition congruence).
  exec; close_outcome.
Qed.

Lemma i2c_writeto_outcome addr buf st :
  wf st ->
  outcome bus_ok st [Writeto addr buf] tt (i2c_writeto bus_ok addr buf st).
Proof.
  intros Hwf. unfold outcome, i2c_writeto, log.
  destruct (bus_ok _) eqn:Hbus; cbn [fst snd trace].
  - split; [exact Hwf|]. left. split; reflexivity.
  - split; [exact Hwf|]. right. split; [reflexivity|].
    split; [exact Hbus|]. eexists. split; [reflexivity | reflexivity].
Qed.

(** What follows the product-ID query in [init]. *)
Lemma init_tail_outcome config st :
  wf st ->
  outcome bus_ok st
    (firmware_query
       ++ [Writeto GT911_I2C_SLAVE_ADDR config] ++ [command_write GT911_CMD_READ])
    tt
    (bind (firmware bus_ok bus_data)
       (fun _ => bind (i2c_writeto bus_ok GT911_I2C_SLAVE_ADDR config)
          (fun _ => set_command_register bus_ok 0x00)) st).
Proof.
  intros Hwf. destruct (firmware_outcome st Hwf) as [v Hfw].
  eapply outcome_bind; [exact Hfw|]. intros st1 Hwf1 _.
  eapply outcome_bind; [apply i2c_writeto_outcome; exact Hwf1|].
  intros st2 Hwf2 _. apply set_command_register_outcome. exact Hwf2.
Qed.

(** The product-ID property starts with the address write of its query,
    whatever the bus does; on a bus without failures and with a product
    ID that decodes it returns after the read of four bytes. *)
Lemma product_id_run st :
  wf st ->
  exists r st1 ev,
    product_id bus_ok bus_data utf8_check st = (r, st1) /\
    wf st1 /\ width st1 = width st /\ height st1 = height st /\
    trace st1
    = trace st ++ Writeto GT911_I2C_SLAVE_ADDR (encode_address GT911_REG_ID) :: ev /\
    ((forall tr, bus_ok tr = true) ->
     utf8_check (product_id_bytes bus_data (trace st)) = true ->
     (exists v, r = Ok v) /\ trace st1 = trace st ++ product_id_query).
Proof.
  intros Hwf. open_state st Hwf.
  unfold product_id, product_id_bytes, product_id_query.
  rewrite <- (address_bytes GT911_REG_ID) by (compute; intuition congruence).
  exec; do 3 eexists; (split; [reflexivity|]);
    rewrite <- ?app_assoc in *; cbn [app trace width height] in *;
    rewrite ?byte_idemp in *;
    (split; [reflexivity|]); (split; [reflexivity|]); (split; [reflexivity|]);
    (split; [reflexivity|]); intros Hok Hutf;
    try (rewrite Hok in *; discriminate);
    try congruence.
  split; [eexists; reflexivity | reflexivity].
Qed.

(** Whatever the dimensions and whatever the bus does, the first
    transaction [init] requests is the address write of the product-ID
    query. *)
Lemma init_first_request st :
  wf st ->
  exists tl,
    trace (init bus_ok bus_data utf8_check st).2
    = trace st ++ Writeto GT911_I2C_SLAVE_ADDR (encode_address GT911_REG_ID) :: tl.
Proof.
  intros Hwf.
  destruct (init_config_total (width st) (height st)) as (config & Hcfg & _).
  rewrite (init_after_config st config Hcfg). clear Hcfg.
  destruct (product_id_run st Hwf) as (r & st1 & ev & Hrun & Hwf1 & _ & _ & Htr & _).
  unfold bind at 1. rewrite Hrun.
  destruct r as [v | e].
  - destruct (init_tail_outcome config st1 Hwf1) as (_ & [[_ H] | (_ & _ & ev' & _ & H)]);
      rewrite H, Htr, <- app_assoc; cbn [app]; eexists; reflexivity.
  - cbn [snd]. rewrite Htr. eexists. reflexivity.
Qed.

(** On a bus without failures and with a product ID that decodes, [init]
    completes: it queries the product ID and the firmware version, writes
    the buffer in one transaction and sends the command READ. *)
Lemma init_ok st :
  (forall tr, bus_ok tr = true) ->
  utf8_check (product_id_bytes bus_data (trace st)) = true ->
  wf st ->
  exists config st',
    init_config (width st) (height st) = Ok config /\
    init bus_ok bus_data utf8_check st = (Ok tt, st') /\
    trace st' =
      trace st ++ product_id_query ++ firmware_query
        ++ [Writeto GT911_I2C_SLAVE_ADDR config; command_write GT911_CMD_READ].
Proof.
  intros Hok Hutf Hwf.
  destruct (init_config_total (width st) (height st)) as (config & Hcfg & _).
  exists config. rewrite (init_after_config st config Hcfg).
  destruct (product_id_run st Hwf) as (r & st1 & ev & Hrun & Hwf1 & _ & _ & _ & Hid).
  destruct (Hid Hok Hutf) as [[v ->] Htr1].
  destruct (outcome_ok _ _ _ _ _ Hok (init_tail_outcome config st1 Hwf1))
    as (st' & Hrun' & Htr' & _).
  exists st'. split; [exact Hcfg|].
  unfold bind at 1. rewrite Hrun. split; [exact Hrun'|].
  rewrite Htr', Htr1, <- !app_assoc. reflexivity.
Qed.

End Init.

(** C4 (as amended): on a bus without failures and with a product ID that
    decodes, [init] uploads the configuration in a single write of 188
    bytes: the two address bytes of register 0x8047 followed by the blob;
    width and height are little-endian at the indices 3 to 6 of that
    buffer, which are the offsets 1 to 4 of the blob, the last byte is 1,
    and every other byte except the one at index 184 is the constant of
    the table. *)
Theorem init_upload bus_ok bus_data utf8_check st :
  (forall tr, bus_ok tr = true) ->
  utf8_check (product_id_bytes bus_data (trace st)) = true ->
  wf st ->
  exists config st',
    init bus_ok bus_data utf8_check st = (Ok tt, st') /\
    trace st' =
      trace st ++ product_id_query ++ firmware_query
        ++ [Writeto GT911_I2C_SLAVE_ADDR config; command_write GT911_CMD_READ] /\
    length config = 188%nat /\
    take 2 config = encode_address GT911_REG_CONFIG_DATA /\
    length (blob_of config) = 186%nat /\
    blob_of config !! 1%nat = Some (Z.land (width st) 0xFF) /\
    blob_of config !! 2%nat = Some (Z.land (Z.shiftr (width st) 8) 0xFF) /\
    blob_of config !! 3%nat = Some (Z.land (height st) 0xFF) /\
    blob_of config !! 4%nat = Some (Z.land (Z.shiftr (height st) 8) 0xFF) /\
    blob_of config !! 185%nat = Some 1 /\
    (forall i : nat,
        i <> 3%nat -> i <> 4%nat -> i <> 5%nat -> i <> 6%nat ->
        i <> 184%nat ->
        config !! i = config_literal 0 0 !! i).
Proof.
  intros Hok Hutf Hwf.
  destruct (init_ok bus_ok bus_data utf8_check st Hok Hutf Hwf)
    as (config & st' & Hcfg & Hrun & Htr).
  destruct (init_config_layout (width st) (height st))
    as (config' & Hcfg' & Hlen & Haddr & H3 & H4 & H5 & H6 & H187 & Hrest).
  rewrite Hcfg in Hcfg'. injection Hcfg' as <-.
  exists config, st'. unfold blob_of.
  rewrite length_drop, !lookup_drop, Hlen.
  repeat (split; [assumption || reflexivity|]). exact Hrest.
Qed.

(** C3 (as amended): [init] does not validate the panel dimensions.  For
    every width and height, 4096 and more included, the first thing it
    does is request the product-ID query on the bus, and on a bus without
    failures and with a product ID that decodes it completes without an
    error. *)
Theorem init_no_validation bus_ok bus_data utf8_check st :
  wf st ->
  (exists tl,
      trace (init bus_ok bus_data utf8_check st).2
      = trace st ++ Writeto GT911_I2C_SLAVE_ADDR (encode_address GT911_REG_ID) :: tl) /\
  ((forall tr, bus_ok tr = true) ->
   utf8_check (product_id_bytes bus_data (trace st)) = true ->
   (init bus_ok bus_data utf8_check st).1 = Ok tt).
Proof.
  intros Hwf. split.
  - apply init_first_request. exact Hwf.
  - intros Hok Hutf.
    destruct (init_ok bus_ok bus_data utf8_check st Hok Hutf Hwf)
      as (config & st' & _ & Hrun & _).
    rewrite Hrun. reflexivity.
Qed.

(** ** The statements on concrete devices *)

(** C3 (refuted as stated): a driver configured with a width of 4096 is
    not stopped at the entry of [init]; on a responsive bus the run ends
    without an error after six transactions. *)
Lemma init_not_validated_4096 :
  ~ validated_at_entry
      (init always_ok (scripted identity_blocks) utf8_any)
      (GT911_new 4096 320 []).
Proof.
  intros H. destruct H as (e & He & _); [left; cbn; lia|].
  vm_compute in He. discriminate He.
Qed.

(** [init_no_validation] on a responsive bus, for a width of 4096. *)
Lemma init_no_validation_witness :
  (exists tl,
      trace (init always_ok (scripted identity_blocks) utf8_ascii
               (GT911_new 4096 320 [])).2
      = Writeto GT911_I2C_SLAVE_ADDR (encode_address GT911_REG_ID) :: tl) /\
  (init always_ok (scripted identity_blocks) utf8_ascii
     (GT911_new 4096 320 [])).1 = Ok tt.
Proof.
  destruct (init_no_validation always_ok (scripted identity_blocks) utf8_ascii
              (GT911_new 4096 320 []) (wf_new 4096 320 [])) as [H1 H2].
  split; [exact H1|]. apply H2; intros; reflexivity.
Defined.

(** [init_upload] on a responsive bus, for a panel of 480 by 320: the
    dimension bytes are 0xE0, 0x01, 0x40, 0x01. *)
Lemma init_upload_witness :
  exists config st',
    init always_ok (scripted identity_blocks) utf8_ascii fresh = (Ok tt, st') /\
    trace st' =
      product_id_query ++ firmware_query
        ++ [Writeto GT911_I2C_SLAVE_ADDR config; command_write GT911_CMD_READ] /\
    length config = 188%nat /\
    blob_of config !! 1%nat = Some 0xE0 /\
    blob_of config !! 2%nat = Some 0x01 /\
    blob_of config !! 3%nat = Some 0x40 /\
    blob_of config !! 4%nat = Some 0x01 /\
    blob_of config !! 185%nat = Some 1.
Proof.
  destruct (init_upload always_ok (scripted identity_blocks) utf8_ascii fresh)
    as (config & st' & Hrun & Htr & Hlen & _ & _ & H1 & H2 & H3 & H4 & H5 & _);
    [intros; reflexivity | intros; reflexivity | reflexivity |].
  exists config, st'. repeat split; assumption.
Defined.

(** [poll_status_acknowledgement] for the status bytes 0x00 and 0x80. *)
Lemma poll_status_acknowledgement_witness :
  (exists st',
      _get_coords always_ok (scripted not_ready_blocks) fl_fixed fresh
      = (Ok None, st') /\
      trace st' = status_query) /\
  (exists st',
      _get_coords always_ok (scripted no_point_blocks) fl_fixed fresh
      = (Ok None, st') /\
      trace st' = status_query ++ [status_clear]).
Proof.
  split.
  - apply (poll_status_acknowledgement always_ok (scripted not_ready_blocks)
             fl_fixed fresh); [intros; reflexivity | reflexivity | reflexivity].
  - apply (poll_status_acknowledgement always_ok (scripted no_point_blocks)
             fl_fixed fresh);
      [intros; reflexivity | reflexivity | vm_compute; discriminate | reflexivity].
Defined.

(** [poll_mean] for the points (100,100), (102,104), (98,96). *)
Lemma poll_mean_witness :
  exists st',
    _get_coords always_ok (scripted three_point_blocks) fl_fixed fresh
    = (Ok (Some (100, 100)), st').
Proof.
  destruct (poll_mean always_ok (scripted three_point_blocks) fl_fixed fresh)
    as [_ H];
    [exact fl_fixed_format | intros; reflexivity | reflexivity
    | vm_compute; discriminate | vm_compute; discriminate |].
  exact H.
Defined.

(** [poll_point_blocks] for one point whose block is
    0x34, 0x01, 0x78, 0x02, 0, 0. *)
Lemma poll_point_blocks_witness :
  exists pts st',
    _get_coords always_ok (scripted one_point_blocks) fl_fixed fresh
    = (Ok (Some (int_truediv fl_fixed (sum pts.*1) (len pts.*1),
                 int_truediv fl_fixed (sum pts.*2) (len pts.*2))), st') /\
    trace st' =
      status_query
        ++ [Writeto GT911_I2C_SLAVE_ADDR [0x81; 0x50];
            ReadfromInto GT911_I2C_SLAVE_ADDR 6]
        ++ [status_clear] /\
    pts = [(308, 632)].
Proof.
  destruct (poll_point_blocks always_ok (scripted one_point_blocks) fl_fixed fresh)
    as (pts & st' & Hrun & Htr & Hlen & Hi);
    [intros; reflexivity | reflexivity
    | vm_compute; discriminate | vm_compute; discriminate |].
  exists pts, st'. split; [exact Hrun|]. split; [exact Htr|].
  destruct (Hi 0%nat (le_n 1)) as (_ & _ & _ & Hp).
  destruct pts as [|p [|q pts]]; try discriminate Hlen.
  injection Hp as ->. reflexivity.
Defined.

(** [poll_acknowledges_last] for a poll of three points. *)
Lemma poll_acknowledges_last_witness :
  trace (_get_coords always_ok (scripted three_point_blocks) fl_fixed fresh).2
  = (status_query ++ points_query [0; 1; 2]%nat) ++ [status_clear].
Proof.
  destruct (poll_acknowledges_last always_ok (scripted three_point_blocks)
              fl_fixed fresh (wf_new 480 320 [])) as [_ H].
  apply H; [intros; reflexivity | vm_compute; discriminate].
Defined.

(** [set_command_register_write] for the command CALIBRATE. *)
Lemma set_command_register_write_witness :
  trace (set_command_register always_ok GT911_CMD_CALIBRATE fresh).2
  = [Writeto GT911_I2C_SLAVE_ADDR [0x80; 0x40; 0x04]].
Proof.
  destruct (set_command_register_write always_ok fresh GT911_CMD_CALIBRATE)
    as [_ H]; [reflexivity | unfold GT911_CMD_CALIBRATE; lia |].
  exact H.
Defined.

(** [poll_point_count_unclamped] for the status byte 0x8F: fifteen
    blocks are read. *)
Lemma poll_point_count_unclamped_witness :
  exists v st',
    _get_coords always_ok (scripted fifteen_point_blocks) fl_fixed fresh
    = (Ok v, st') /\
    trace st' =
      status_query ++ points_query (seq 0 15) ++ [status_clear] /\
    block_reads (status_query ++ points_query (seq 0 15) ++ [status_clear])
    = 15%nat.
Proof.
  apply (poll_point_count_unclamped always_ok (scripted fifteen_point_blocks)
           fl_fixed fresh);
    [intros; reflexivity | reflexivity | vm_compute; discriminate].
Defined.

(** The cases the documentation lists, by evaluation. *)

Example poll_not_ready :
  let p := _get_coords always_ok (scripted not_ready_blocks) fl_fixed fresh in
  p.1 = Ok None /\
  trace p.2 = [Writeto 0x5D [0x81; 0x4E]; ReadfromInto 0x5D 1].
Proof. vm_compute. split; reflexivity. Qed.

Example poll_no_point :
  let p := _get_coords always_ok (scripted no_point_blocks) fl_fixed fresh in
  p.1 = Ok None /\
  trace p.2 = [Writeto 0x5D [0x81; 0x4E]; ReadfromInto 0x5D 1;
               Writeto 0x5D [0x81; 0x4E; 0x00]].
Proof. vm_compute. split; reflexivity. Qed.

Example poll_one_point :
  let p := _get_coords always_ok (scripted one_point_blocks) fl_fixed fresh in
  p.1 = Ok (Some (308, 632)) /\
  trace p.2 = [Writeto 0x5D [0x81; 0x4E]; ReadfromInto 0x5D 1;
               Writeto 0x5D [0x81; 0x50]; ReadfromInto 0x5D 6;
               Writeto 0x5D [0x81; 0x4E; 0x00]].
Proof. vm_compute. split; reflexivity. Qed.

Example poll_three_points :
  let p := _get_coords always_ok (scripted three_point_blocks) fl_fixed fresh in
  p.1 = Ok (Some (100, 100)) /\
  trace p.2 = [Writeto 0x5D [0x81; 0x4E]; ReadfromInto 0x5D 1;
               Writeto 0x5D [0x81; 0x50]; ReadfromInto 0x5D 6;
               Writeto 0x5D [0x81; 0x58]; ReadfromInto 0x5D 6;
               Writeto 0x5D [0x81; 0x60]; ReadfromInto 0x5D 6;
               Writeto 0x5D [0x81; 0x4E; 0x00]].
Proof. vm_compute. split; reflexivity. Qed.

Example send_calibrate :
  set_command_register always_ok GT911_CMD_CALIBRATE fresh
  = (Ok tt,
     mkState [0x80; 0x40; 0x04; 0; 0; 0] 480 320
       [Writeto 0x5D [0x80; 0x40; 0x04]]).
Proof. vm_compute. reflexivity. Qed.

(** On a dead bus a poll raises after the first address write; it does
    not report "no touch". *)
Example poll_dead_bus :
  let p := _get_coords never_ok (scripted not_ready_blocks) fl_fixed fresh in
  p.1 = Raise OSError /\ trace p.2 = [Writeto 0x5D [0x81; 0x4E]].
Proof. vm_compute. split; reflexivity. Qed.

(** * Further properties *)

(** ** No failure of the bus is swallowed *)

Section Faithful.

Variable bus_ok : list event -> bool.
Variable bus_data : list event -> nat -> Z.
Variable utf8_check : list Z -> bool.
Variable fl : Q -> Q.

Lemma acknowledged_nil tr : acknowledged bus_ok tr [].
Proof. intros k Hk. cbn in Hk. lia. Qed.

Lemma acknowledged_one tr e :
  bus_ok (tr ++ [e]) = true -> acknowledged bus_ok tr [e].
Proof.
  intros H k Hk. cbn in Hk. assert (k = 1%nat) as -> by lia. exact H.
Qed.

Lemma acknowledged_app tr ev1 ev2 :
  acknowledged bus_ok tr ev1 -> acknowledged bus_ok (tr ++ ev1) ev2 ->
  acknowledged bus_ok tr (ev1 ++ ev2).
Proof.
  intros H1 H2 k Hk. rewrite length_app in Hk.
  destruct (Nat.le_gt_cases k (length ev1)) as [Hle | Hgt].
  - rewrite take_app_le by exact Hle. apply H1. lia.
  - rewrite take_app_ge by lia. rewrite app_assoc. apply H2. lia.
Qed.

Lemma faithful_silent {A} (m : M A) :
  (forall st, trace (m st).2 = trace st) -> faithful bus_ok m.
Proof.
  intros Hm st v st' Hrun. exists []. split.
  - rewrite app_nil_r. rewrite <- (Hm st), Hrun. reflexivity.
  - apply acknowledged_nil.
Qed.

Lemma faithful_ret {A} (a : A) : faithful bus_ok (ret a).
Proof. apply faithful_silent. reflexivity. Qed.

Lemma faithful_raise {A} e : faithful bus_ok (@raise A e).
Proof. apply faithful_silent. reflexivity. Qed.

Lemma faithful_buf_get i : faithful bus_ok (buf_get i).
Proof. apply faithful_silent. reflexivity. Qed.

Lemma faithful_buf_set i v : faithful bus_ok (buf_set i v).
Proof.
  apply faithful_silent. intros st. unfold buf_set.
  destruct (setitem (data_buf st) i v); reflexivity.
Qed.

Lemma faithful_mv_slice k : faithful bus_ok (mv_slice k).
Proof. apply faithful_silent. reflexivity. Qed.

Lemma faithful_writeto addr buf : faithful bus_ok (i2c_writeto bus_ok addr buf).
Proof.
  intros st v st'. unfold i2c_writeto, log. cbn [trace].
  destruct (bus_ok _) eqn:Hbus; intros Hrun; [|discriminate Hrun].
  injection Hrun as _ <-. cbn [trace]. eexists. split; [reflexivity|].
  apply acknowledged_one. exact Hbus.
Qed.

Lemma faithful_readfrom addr k :
  faithful bus_ok (i2c_readfrom_into bus_ok bus_data addr k).
Proof.
  intros st v st'. unfold i2c_readfrom_into, log, set_data_buf. cbn [trace].
  destruct (bus_ok _) eqn:Hbus; intros Hrun; [|discriminate Hrun].
  injection Hrun as _ <-. cbn [trace]. eexists. split; [reflexivity|].
  apply acknowledged_one. exact Hbus.
Qed.

Lemma faithful_bind {A B} (m : M A) (k : A -> M B) :
  faithful bus_ok m -> (forall a, faithful bus_ok (k a)) ->
  faithful bus_ok (bind m k).
Proof.
  intros Hm Hk st v st'. unfold bind.
  destruct (m st) as [[a | e] st1] eqn:Hrun; intros Hrun'; [|discriminate Hrun'].
  destruct (Hm st a st1 Hrun) as (ev1 & Htr1 & Hack1).
  destruct (Hk a st1 v st' Hrun') as (ev2 & Htr2 & Hack2).
  exists (ev1 ++ ev2). split.
  - rewrite Htr2, Htr1, app_assoc. reflexivity.
  - apply acknowledged_app; [exact Hack1|]. rewrite <- Htr1. exact Hack2.
Qed.

(** Goes through straight-line driver code. *)
Ltac faithful_steps :=
  repeat first
    [ apply faithful_bind; [|intros ?]
    | apply faithful_ret | apply faithful_raise
    | apply faithful_buf_get | apply faithful_buf_set | apply faithful_mv_slice
    | apply faithful_writeto | apply faithful_readfrom ].

Lemma faithful_set_command_register command :
  faithful bus_ok (set_command_register bus_ok command).
Proof. unfold set_command_register. faithful_steps. Qed.

Lemma faithful_product_id :
  faithful bus_ok (product_id bus_ok bus_data utf8_check).
Proof.
  unfold product_id. faithful_steps.
  destruct (utf8_check _); faithful_steps.
Qed.

Lemma faithful_firmware : faithful bus_ok (firmware bus_ok bus_data).
Proof. unfold firmware. faithful_steps. Qed.

Lemma faithful_status_get : faithful bus_ok (status_get bus_ok bus_data).
Proof. unfold status_get. faithful_steps. Qed.

Lemma faithful_status_set value : faithful bus_ok (status_set bus_ok value).
Proof. unfold status_set. faithful_steps. Qed.

Lemma faithful_read_point i : faithful bus_ok (read_point bus_ok bus_data i).
Proof. unfold read_point. faithful_steps. Qed.

Lemma faithful_read_points l : forall coord_x coord_y,
  faithful bus_ok (read_points bus_ok bus_data l coord_x coord_y).
Proof.
  induction l as [|i l IH]; intros cx cy; cbn [read_points].
  - apply faithful_ret.
  - apply faithful_bind; [apply faithful_read_point|]. intros p. apply IH.
Qed.

Lemma faithful_truediv a b : faithful bus_ok (truediv fl a b).
Proof. unfold truediv. destruct (a =? 0), (b =? 0); faithful_steps. Qed.

Lemma faithful_get_coords : faithful bus_ok (_get_coords bus_ok bus_data fl).
Proof.
  unfold _get_coords.
  apply faithful_bind; [apply faithful_status_get|]. intros status.
  destruct (negb _); [|apply faithful_ret].
  destruct (negb _).
  - apply faithful_bind; [apply faithful_read_points|]. intros cs.
    apply faithful_bind; [apply faithful_truediv|]. intros qx.
    apply faithful_bind; [apply faithful_truediv|]. intros qy.
    apply faithful_bind; [apply faithful_status_set|]. intros _.
    apply faithful_ret.
  - apply faithful_bind; [apply faithful_status_set|]. intros _.
    apply faithful_ret.
Qed.

Lemma faithful_init : faithful bus_ok (init bus_ok bus_data utf8_check).
Proof.
  unfold init.
  apply faithful_bind; [apply faithful_silent; reflexivity|]. intros config.
  apply faithful_bind; [apply faithful_product_id|]. intros _.
  apply faithful_bind; [apply faithful_firmware|]. intros _.
  apply faithful_bind; [apply faithful_writeto|]. intros _.
  apply faithful_set_command_register.
Qed.

End Faithful.

(** X1: a poll returns normally only with the value and the transactions
    of a complete poll, every one of them completed on the bus; when it
    raises, the exception is [OSError] and the last transaction of the
    trace is one that failed.  A failure of the bus is never reported as
    "no touch", and the division by the number of points cannot fail. *)
Theorem poll_reports_bus_failure bus_ok bus_data fl st :
  wf st ->
  let p := _get_coords bus_ok bus_data fl st in
  (forall v, p.1 = Ok v ->
     v = poll_value bus_data fl (trace st) /\
     trace p.2 = trace st ++ poll_events bus_data (trace st) /\
     acknowledged bus_ok (trace st) (poll_events bus_data (trace st))) /\
  (forall e, p.1 = Raise e -> e = OSError /\ bus_ok (trace p.2) = false).
Proof.
  intros Hwf p.
  pose proof (_get_coords_outcome bus_ok bus_data fl st Hwf) as Hout.
  fold p in Hout. destruct Hout as (_ & [[Hr Htr] | (Hr & Hbus & _)]).
  - split.
    + intros v Hv. rewrite Hr in Hv. injection Hv as <-.
      split; [reflexivity|]. split; [exact Htr|].
      destruct p as [r st'] eqn:Hp. cbn [fst snd] in *. subst r.
      destruct (faithful_get_coords bus_ok bus_data fl st _ st' Hp)
        as (ev & Hev & Hack).
      rewrite Htr in Hev. apply app_inv_head in Hev. subst ev. exact Hack.
    + intros e He. rewrite Hr in He. discriminate He.
  - split.
    + intros v Hv. rewrite Hr in Hv. discriminate Hv.
    + intros e He. rewrite Hr in He. injection He as <-.
      split; [reflexivity | exact Hbus].
Qed.

Lemma points_query_length l :
  length (points_query l) = (2 * length l)%nat.
Proof.
  induction l as [|i l IH]; [reflexivity|].
  rewrite points_query_cons, length_app, IH. cbn [length point_query]. lia.
Qed.

(** Checks a list of events given in full against [poll_event]. *)
Ltac poll_events_tac :=
  repeat first [apply Forall_nil_2 | apply Forall_cons_2];
  (split; [reflexivity | first [left; reflexivity | right; reflexivity]]).

Lemma points_query_events l : Forall poll_event (points_query l).
Proof.
  induction l as [|i l IH]; [constructor|].
  rewrite points_query_cons. apply Forall_app. split; [|exact IH].
  unfold point_query. poll_events_tac.
Qed.

Lemma poll_events_shape bus_data tr :
  Forall poll_event (poll_events bus_data tr) /\
  (length (poll_events bus_data tr) <= 33)%nat.
Proof.
  unfold poll_events.
  pose proof (land_15_range (status_of bus_data tr)) as Hn.
  destruct (negb _).
  - split.
    + apply Forall_app. split; [unfold status_query; poll_events_tac|].
      apply Forall_app. split; [apply points_query_events|].
      poll_events_tac.
    + rewrite !length_app, points_query_length, length_seq.
      cbn [length status_query]. lia.
  - split; [unfold status_query; poll_events_tac | cbn; lia].
Qed.

(** X2: whatever the bus does, the transactions of one poll go to the
    controller at address 0x5D, are at most 33, and are reads of one or
    six bytes, writes of two address bytes, or the acknowledgement; a
    poll writes data to no register but the status register, and only
    zero. *)
Theorem poll_traffic bus_ok bus_data fl st :
  wf st ->
  exists ev,
    trace (_get_coords bus_ok bus_data fl st).2 = trace st ++ ev /\
    (length ev <= 33)%nat /\
    Forall poll_event ev.
Proof.
  intros Hwf.
  destruct (poll_events_shape bus_data (trace st)) as [Hshape Hlen].
  destruct (_get_coords_outcome bus_ok bus_data fl st Hwf)
    as (_ & [[_ Htr] | (_ & _ & ev & [k Hk] & Htr)]).
  - eexists. split; [exact Htr|]. split; assumption.
  - exists ev. split; [exact Htr|]. rewrite Hk in Hshape, Hlen.
    apply Forall_app in Hshape as [Hev _]. rewrite length_app in Hlen.
    split; [lia | exact Hev].
Qed.

(** ** The diagnostic accessors *)

Section Accessors.

Variable bus_ok : list event -> bool.
Variable bus_data : list event -> nat -> Z.
Variable utf8_check : list Z -> bool.

(** The three ways [product_id] ends. *)
Lemma product_id_cases st :
  wf st ->
  let p := product_id bus_ok bus_data utf8_check st in
  let bytes := product_id_bytes bus_data (trace st) in
  wf p.2 /\
  ((p.1 = Ok bytes /\ utf8_check bytes = true /\
    trace p.2 = trace st ++ product_id_query) \/
   (p.1 = Raise UnicodeError /\ utf8_check bytes = false /\
    trace p.2 = trace st ++ product_id_query) \/
   (p.1 = Raise OSError /\ bus_ok (trace p.2) = false)).
Proof.
  intros Hwf. open_state st Hwf.
  unfold product_id, product_id_bytes, product_id_query.
  rewrite <- (address_bytes GT911_REG_ID) by (compute; intuition congruence).
  exec; rewrite <- ?app_assoc in *; cbn [app] in *;
    rewrite ?byte_idemp in *; (split; [reflexivity|]).
  - left. repeat split; first [reflexivity | assumption].
  - right. left. repeat split; first [reflexivity | assumption].
  - right. right. split; [reflexivity | assumption].
  - right. right. split; [reflexivity | assumption].
Qed.

End Accessors.

(** X3: on a bus without failures [product_id] requests the address
    write of register 0x8140 and a read of four bytes, and hands the
    four bytes to the decoder in the reverse of the order they were
    delivered in; it returns them when they decode and raises
    [UnicodeError] when they do not. *)
Theorem product_id_reversed bus_ok bus_data utf8_check st :
  (forall tr, bus_ok tr = true) -> wf st ->
  let block := bus_data (trace st ++ product_id_query) in
  let bytes := [byte (block 3%nat); byte (block 2%nat); byte (block 1%nat);
                byte (block 0%nat)] in
  exists st',
    product_id bus_ok bus_data utf8_check st
    = (if utf8_check bytes then Ok bytes else Raise UnicodeError, st') /\
    trace st' = trace st ++ product_id_query.
Proof.
  intros Hok Hwf block bytes.
  pose proof (product_id_cases bus_ok bus_data utf8_check st Hwf) as H.
  cbn zeta in H. fold block in H.
  change (product_id_bytes bus_data (trace st)) with bytes in H.
  destruct (product_id bus_ok bus_data utf8_check st) as [r st'].
  cbn [fst snd] in H. exists st'.
  destruct H as (_ & [(-> & Hu & Htr) | [(-> & Hu & Htr) | (_ & Hbus)]]).
  - rewrite Hu. split; [reflexivity | exact Htr].
  - rewrite Hu. split; [reflexivity | exact Htr].
  - rewrite Hok in Hbus. discriminate Hbus.
Qed.

(** [high << 8 | low], the expression [firmware] returns. *)
Lemma firmware_word low high :
  0 <= low < 256 -> Z.lor (Z.shiftl high 8) low = low + 256 * high.
Proof.
  intros Hlow. rewrite Z.lor_comm. apply (decode_u16_le_add low high Hlow).
Qed.

(** X4: on a bus without failures [firmware] requests the address write
    of register 0x8144 and a read of two bytes, and returns the
    little-endian 16-bit value of the two bytes delivered, a number from
    0 to 65535. *)
Theorem firmware_value bus_ok bus_data st :
  (forall tr, bus_ok tr = true) -> wf st ->
  let block := bus_data (trace st ++ firmware_query) in
  let v := byte (block 0%nat) + 256 * byte (block 1%nat) in
  0 <= v <= 65535 /\
  exists st',
    firmware bus_ok bus_data st = (Ok v, st') /\
    trace st' = trace st ++ firmware_query.
Proof.
  intros Hok Hwf block v.
  pose proof (byte_range (block 0%nat)) as H0.
  pose proof (byte_range (block 1%nat)) as H1.
  split; [unfold v; lia|].
  unfold v, block. clear v block H0 H1.
  open_state st Hwf. unfold firmware, firmware_query.
  rewrite <- (address_bytes GT911_REG_FW_VER) by (compute; intuition congruence).
  exec; try (rewrite Hok in *; discriminate).
  rewrite firmware_word by apply byte_range.
  rewrite <- ?app_assoc. cbn [app].
  eexists. split; reflexivity.
Qed.

(** ** The ways [init] ends *)

(** The ways [init] ends, for any bus and any decoder. *)
Lemma init_cases bus_ok bus_data utf8_check st :
  wf st ->
  let p := init bus_ok bus_data utf8_check st in
  wf p.2 /\
  (p.1 = Ok tt ->
   exists config,
     init_config (width st) (height st) = Ok config /\
     trace p.2 =
       trace st ++ product_id_query ++ firmware_query
         ++ [Writeto GT911_I2C_SLAVE_ADDR config; command_write GT911_CMD_READ] /\
     acknowledged bus_ok (trace st)
       (product_id_query ++ firmware_query
          ++ [Writeto GT911_I2C_SLAVE_ADDR config; command_write GT911_CMD_READ])) /\
  (forall e, p.1 = Raise e ->
     (e = OSError /\ bus_ok (trace p.2) = false) \/
     (e = UnicodeError /\
      utf8_check (product_id_bytes bus_data (trace st)) = false /\
      trace p.2 = trace st ++ product_id_query)).
Proof.
  intros Hwf p.
  destruct (init_config_total (width st) (height st)) as (config & Hcfg & _).
  pose proof (init_after_config bus_ok bus_data utf8_check st config Hcfg) as Hinit.
  pose proof (product_id_cases bus_ok bus_data utf8_check st Hwf) as Hid.
  cbn zeta in Hid. unfold bind at 1 in Hinit.
  destruct (product_id bus_ok bus_data utf8_check st) as [r st1].
  cbn [fst snd] in Hid.
  destruct Hid as (Hwf1 & [(-> & Hu & Htr1) | [(-> & Hu & Htr1) | (-> & Hbus)]]).
  - pose proof (init_tail_outcome bus_ok bus_data config st1 Hwf1) as Hout.
    rewrite <- Hinit in Hout. fold p in Hout.
    destruct Hout as (Hwf' & [[Hr Htr] | (Hr & Hbus & _)]).
    + split; [exact Hwf'|]. split.
      * intros _. exists config. split; [exact Hcfg|].
        assert (Hfull : trace p.2 =
                  trace st ++ product_id_query ++ firmware_query
                    ++ [Writeto GT911_I2C_SLAVE_ADDR config;
                        command_write GT911_CMD_READ])
          by (rewrite Htr, Htr1, <- !app_assoc; reflexivity).
        split; [exact Hfull|].
        destruct p as [r' st'] eqn:Hp. cbn [fst snd] in *. subst r'.
        destruct (faithful_init bus_ok bus_data utf8_check st tt st' Hp)
          as (ev & Hev & Hack).
        rewrite Hfull in Hev. apply app_inv_head in Hev. subst ev. exact Hack.
      * intros e He. rewrite Hr in He. discriminate He.
    + split; [exact Hwf'|]. split.
      * intros H. rewrite Hr in H. discriminate H.
      * intros e He. rewrite Hr in He. injection He as <-.
        left. split; [reflexivity | exact Hbus].
  - unfold p. rewrite Hinit. cbn [fst snd]. split; [exact Hwf1|]. split.
    + intros H. discriminate H.
    + intros e He. injection He as <-. right.
      split; [reflexivity|]. split; [exact Hu | exact Htr1].
  - unfold p. rewrite Hinit. cbn [fst snd]. split; [exact Hwf1|]. split.
    + intros H. discriminate H.
    + intros e He. injection He as <-. left.
      split; [reflexivity | exact Hbus].
Qed.

(** X5: whatever the bus and the decoder do, [init] keeps the six bytes
    of the scratch buffer and ends in one of three ways.  It returns
    normally only after the product-ID query, the firmware query, the
    upload and the command READ, every one of them completed on the bus.
    It raises [OSError] with a failed transaction last in the trace.  Or
    the product ID does not decode: it raises [UnicodeError] right after
    the product-ID query, and neither the configuration nor the command
    is written. *)
Theorem init_endings bus_ok bus_data utf8_check st :
  wf st ->
  let p := init bus_ok bus_data utf8_check st in
  wf p.2 /\
  (p.1 = Ok tt ->
   exists config,
     init_config (width st) (height st) = Ok config /\
     trace p.2 =
       trace st ++ product_id_query ++ firmware_query
         ++ [Writeto GT911_I2C_SLAVE_ADDR config; command_write GT911_CMD_READ] /\
     acknowledged bus_ok (trace st)
       (product_id_query ++ firmware_query
          ++ [Writeto GT911_I2C_SLAVE_ADDR config; command_write GT911_CMD_READ])) /\
  (forall e, p.1 = Raise e ->
     (e = OSError /\ bus_ok (trace p.2) = false) \/
     (e = UnicodeError /\
      utf8_check (product_id_bytes bus_data (trace st)) = false /\
      trace p.2 = trace st ++ product_id_query)).
Proof. exact (init_cases bus_ok bus_data utf8_check st). Qed.

(** X13: on a bus without failures and with a product ID that decodes,
    [init] leaves the driver ready: a poll that follows it reads the
    status afresh and returns the value of a complete poll, and the
    trace is that of [init] followed by that of the poll. *)
Theorem init_then_poll bus_ok bus_data utf8_check fl st :
  (forall tr, bus_ok tr = true) ->
  utf8_check (product_id_bytes bus_data (trace st)) = true ->
  wf st ->
  exists config st1 st2,
    init bus_ok bus_data utf8_check st = (Ok tt, st1) /\
    _get_coords bus_ok bus_data fl st1
    = (Ok (poll_value bus_data fl (trace st1)), st2) /\
    trace st1 =
      trace st ++ product_id_query ++ firmware_query
        ++ [Writeto GT911_I2C_SLAVE_ADDR config; command_write GT911_CMD_READ] /\
    trace st2 = trace st1 ++ poll_events bus_data (trace st1).
Proof.
  intros Hok Hutf Hwf.
  destruct (init_ok bus_ok bus_data utf8_check st Hok Hutf Hwf)
    as (config & st1 & _ & Hrun & Htr).
  destruct (init_cases bus_ok bus_data utf8_check st Hwf) as (Hwf1 & _).
  rewrite Hrun in Hwf1. cbn [snd] in Hwf1.
  destruct (_get_coords_ok bus_ok bus_data fl st1 Hok Hwf1) as (st2 & Hpoll & Htr2).
  exists config, st1, st2. repeat split; assumption.
Qed.


(** ** Commands outside the byte range *)

(** X6: [set_command_register] sends the low eight bits of whatever
    integer it is given, in one write of three bytes, and returns
    normally exactly when the bus completes that write. *)
Theorem set_command_register_wraps bus_ok st command :
  wf st ->
  let p := set_command_register bus_ok command st in
  let tr := trace st ++ [command_write (command mod 256)] in
  trace p.2 = tr /\
  (p.1 = Ok tt <-> bus_ok tr = true) /\
  (p.1 = Raise OSError <-> bus_ok tr = false).
Proof.
  intros Hwf. open_state st Hwf.
  unfold set_command_register, command_write.
  rewrite <- (address_bytes GT911_REG_COMMAND) by (compute; intuition congruence).
  fold (byte command).
  exec; (split; [reflexivity|]); split; split; intros H;
    first [reflexivity | assumption | discriminate H | congruence].
Qed.

(** ** The scratch buffer *)

(** X7: whatever the bus and the decoder do, a poll, a command and the
    two diagnostic accessors leave the scratch buffer with its six
    bytes, so that no later call can index outside of it. *)
Theorem operations_keep_buffer bus_ok bus_data utf8_check fl st command :
  wf st ->
  wf (_get_coords bus_ok bus_data fl st).2 /\
  wf (set_command_register bus_ok command st).2 /\
  wf (firmware bus_ok bus_data st).2 /\
  wf (product_id bus_ok bus_data utf8_check st).2.
Proof.
  intros Hwf. split; [|split; [|split]].
  - apply (_get_coords_outcome bus_ok bus_data fl st Hwf).
  - apply (set_command_register_outcome bus_ok bus_data command st Hwf).
  - destruct (firmware_outcome bus_ok bus_data st Hwf) as [v Hv]. apply Hv.
  - apply (product_id_cases bus_ok bus_data utf8_check st Hwf).
Qed.

(** ** The reported point *)

Lemma sum_between lo hi l :
  Forall (fun x => lo <= x <= hi) l ->
  lo * len l <= sum l <= hi * len l.
Proof.
  unfold len. induction 1 as [|x l Hx _ IH]; cbn [sum foldr length].
  - lia.
  - unfold sum in IH. lia.
Qed.

Lemma mean_between lo hi l :
  l <> [] -> Forall (fun x => lo <= x <= hi) l ->
  lo <= sum l / len l <= hi.
Proof.
  intros Hne Hl. pose proof (sum_between lo hi l Hl) as Hs.
  assert (0 < len l) by (unfold len; destruct l; [congruence | cbn; lia]).
  split.
  - apply Z.div_le_lower_bound; lia.
  - apply Z.div_le_upper_bound; lia.
Qed.

(** The value of a poll that reports a point. *)
Lemma poll_value_mean bus_data fl tr :
  float_format fl ->
  let status := status_of bus_data tr in
  let n := Z.to_nat (Z.land status 0x0F) in
  let pts := points_read bus_data (tr ++ status_query) (seq 0 n) in
  Z.land status 0x80 <> 0 -> n <> 0%nat ->
  pts <> [] /\
  poll_value bus_data fl tr
  = Some (sum pts.*1 / len pts.*1, sum pts.*2 / len pts.*2).
Proof.
  intros Hfl status n pts H7 Hn.
  assert (Hlen : length pts = n)
    by (unfold pts; rewrite points_read_length, length_seq; reflexivity).
  split; [intros E; rewrite E in Hlen; cbn in Hlen; lia|].
  unfold poll_value. fold status.
  apply Z.eqb_neq in H7. rewrite H7. cbn [negb].
  pose proof (land_15_range status) as Hrange.
  assert ((Z.land status 0x0F =? 0) = false) as ->
    by (apply Z.eqb_neq; unfold n in Hn; lia).
  cbn [negb]. fold n. fold pts.
  pose proof (points_read_range bus_data (seq 0 n) (tr ++ status_query)) as Hpts.
  fold pts in Hpts.
  assert (Hlt : (n < 16)%nat) by (unfold n; lia).
  assert (Hne : forall f : Z * Z -> Z, f <$> pts <> []).
  { intros f E. apply (f_equal length) in E. rewrite length_fmap in E.
    cbn in E. lia. }
  do 2 f_equal; apply mean_floor;
    try exact Hfl; try apply Hne; try (rewrite length_fmap; lia).
  - apply Forall_fmap. eapply Forall_impl; [exact Hpts|]. intros p [Hp _]. exact Hp.
  - apply Forall_fmap. eapply Forall_impl; [exact Hpts|]. intros p [_ Hp]. exact Hp.
Qed.

(** A poll reports a point only for a status with bit 7 set and a point
    count other than zero. *)
Lemma poll_value_some bus_data fl tr xy :
  poll_value bus_data fl tr = Some xy ->
  Z.land (status_of bus_data tr) 0x80 <> 0 /\
  Z.to_nat (Z.land (status_of bus_data tr) 0x0F) <> 0%nat.
Proof.
  unfold poll_value. pose proof (land_15_range (status_of bus_data tr)) as Hr.
  destruct (Z.eqb_spec (Z.land (status_of bus_data tr) 0x80) 0) as [E7 | E7];
    cbn [negb]; [discriminate|].
  destruct (Z.eqb_spec (Z.land (status_of bus_data tr) 0x0F) 0) as [En | En];
    cbn [negb]; [discriminate|].
  intros _. split; [exact E7 | lia].
Qed.

(** X8: whatever the bus does, the point a poll reports has both
    coordinates between 0 and 65535, and it lies in every rectangle that
    contains all the decoded points: the reported x is between the least
    and the greatest decoded x, and likewise for y. *)
Theorem poll_point_within_bounds bus_ok bus_data fl st x y :
  float_format fl -> wf st ->
  (_get_coords bus_ok bus_data fl st).1 = Ok (Some (x, y)) ->
  let n := Z.to_nat (Z.land (status_of bus_data (trace st)) 0x0F) in
  let pts := points_read bus_data (trace st ++ status_query) (seq 0 n) in
  (0 <= x <= 65535 /\ 0 <= y <= 65535) /\
  (forall xlo xhi ylo yhi,
      Forall (fun q : Z * Z => xlo <= q.1 <= xhi /\ ylo <= q.2 <= yhi) pts ->
      xlo <= x <= xhi /\ ylo <= y <= yhi).
Proof.
  intros Hfl Hwf Hrun n pts.
  destruct (_get_coords_outcome bus_ok bus_data fl st Hwf)
    as (_ & [[Hr _] | (Hr & _)]); rewrite Hr in Hrun; [|discriminate Hrun].
  injection Hrun as Hv.
  destruct (poll_value_some _ _ _ _ Hv) as [H7 Hn].
  destruct (poll_value_mean bus_data fl (trace st) Hfl H7 Hn) as [Hne Hmean].
  fold n in Hne, Hmean. fold pts in Hne, Hmean.
  rewrite Hmean in Hv. injection Hv as <- <-.
  assert (Hbox : forall xlo xhi ylo yhi,
             Forall (fun q : Z * Z => xlo <= q.1 <= xhi /\ ylo <= q.2 <= yhi) pts ->
             xlo <= sum pts.*1 / len pts.*1 <= xhi /\
             ylo <= sum pts.*2 / len pts.*2 <= yhi).
  { intros xlo xhi ylo yhi Hall.
    assert (Hnef : forall f : Z * Z -> Z, f <$> pts <> []).
    { intros f E. apply fmap_nil_inv in E. exact (Hne E). }
    split; apply mean_between; try apply Hnef; apply Forall_fmap;
      (eapply Forall_impl; [exact Hall|]); intros q [Hx Hy]; assumption. }
  split; [|exact Hbox].
  apply Hbox. apply points_read_range.
Qed.

(** X9: on a bus without failures and with a float format as assumed, a
    poll that reads a status byte with bit 7 set and a point count of one
    reports that point exactly as decoded from its block. *)
Theorem poll_single_point bus_ok bus_data fl st :
  float_format fl -> (forall tr, bus_ok tr = true) -> wf st ->
  let status := status_of bus_data (trace st) in
  let block := bus_data (trace st ++ status_query ++ point_query 0) in
  Z.land status 0x80 <> 0 -> Z.land status 0x0F = 1 ->
  exists st',
    _get_coords bus_ok bus_data fl st
    = (Ok (Some (decode_u16_le (byte (block 0%nat)) (byte (block 1%nat)),
                 decode_u16_le (byte (block 2%nat)) (byte (block 3%nat)))),
       st').
Proof.
  intros Hfl Hok Hwf status block H7 H1.
  destruct (_get_coords_ok bus_ok bus_data fl st Hok Hwf) as (st' & Heq & _).
  exists st'. rewrite Heq. do 2 f_equal.
  destruct (poll_value_mean bus_data fl (trace st) Hfl H7) as [_ Hmean].
  { fold status. rewrite H1. discriminate. }
  rewrite Hmean. fold status. rewrite H1.
  change (Z.to_nat 1) with 1%nat.
  cbn [seq points_read fmap list_fmap fst snd].
  unfold sum, len, point_at, block. cbn [foldr length fst snd].
  change (Z.of_nat 1) with 1.
  rewrite !Z.add_0_r, !Z.div_1_r, <- app_assoc. reflexivity.
Qed.

(** ** The dimensions in the configuration buffer *)

Lemma land_255_low w : Z.land w 0xFF = w mod 256.
Proof. change 0xFF with (Z.ones 8). apply Z.land_ones. lia. Qed.

Lemma land_255_high w : Z.land (Z.shiftr w 8) 0xFF = (w / 256) mod 256.
Proof. rewrite land_255_low, Z.shiftr_div_pow2 by lia. reflexivity. Qed.

(** X10: only the low sixteen bits of the width and of the height reach
    the configuration buffer: dimensions that agree modulo 65536 give
    the same buffer. *)
Theorem init_config_low_16_bits :
  forall w h : Z,
    init_config w h = init_config (w mod 65536) (h mod 65536).
Proof.
  intros w h.
  assert (Hlit : config_literal w h
                 = config_literal (w mod 65536) (h mod 65536)).
  { unfold config_literal. rewrite !land_255_high, !land_255_low.
    assert (Hlow : forall v, (v mod 65536) mod 256 = v mod 256)
      by (intros v; Z.to_euclidean_division_equations; lia).
    assert (Hhigh : forall v, ((v mod 65536) / 256) mod 256 = (v / 256) mod 256)
      by (intros v; Z.to_euclidean_division_equations; lia).
    rewrite !Hlow, !Hhigh. reflexivity. }
  unfold init_config. rewrite Hlit. reflexivity.
Qed.

(** X11: the four dimension bytes of the buffer decode, as little-endian
    16-bit fields, to the width and the height modulo 65536; dimensions
    from 0 to 65535 are read back unchanged. *)
Theorem init_config_dimensions_round_trip :
  forall w h : Z, exists config w_low w_high h_low h_high,
    init_config w h = Ok config /\
    config !! 3%nat = Some w_low /\ config !! 4%nat = Some w_high /\
    config !! 5%nat = Some h_low /\ config !! 6%nat = Some h_high /\
    decode_u16_le w_low w_high = w mod 65536 /\
    decode_u16_le h_low h_high = h mod 65536 /\
    (0 <= w < 65536 -> decode_u16_le w_low w_high = w) /\
    (0 <= h < 65536 -> decode_u16_le h_low h_high = h).
Proof.
  intros w h.
  destruct (init_config_layout w h)
    as (config & Hcfg & _ & _ & H3 & H4 & H5 & H6 & _).
  assert (Hdec : forall v,
             decode_u16_le (Z.land v 0xFF) (Z.land (Z.shiftr v 8) 0xFF)
             = v mod 65536).
  { intros v. rewrite land_255_high, land_255_low.
    rewrite decode_u16_le_add by (apply Z.mod_pos_bound; lia).
    Z.to_euclidean_division_equations. lia. }
  exists config. do 4 eexists.
  split; [exact Hcfg|]. split; [exact H3|]. split; [exact H4|].
  split; [exact H5|]. split; [exact H6|].
  rewrite !Hdec. split; [reflexivity|]. split; [reflexivity|].
  split; intros Hr; apply Z.mod_small; exact Hr.
Qed.

(** Every element of the configuration buffer is a byte, whatever the
    width and the height. *)
Lemma init_config_bytes :
  forall w h : Z, exists config,
    init_config w h = Ok config /\
    Forall (fun b => 0 <= b < 256) config.
Proof.
  intros w h. eexists. split; [apply init_config_eq|].
  apply Forall_insert; [|apply byte_range].
  unfold bytearray. apply Forall_fmap, Forall_forall. intros b _.
  apply byte_range.
Qed.

(** ** Register addresses *)

(** A 16-bit address splits into a high and a low byte. *)
Lemma address_split a :
  0 <= a < 65536 ->
  0 <= Z.shiftr a 8 < 256 /\ 0 <= Z.land a 0xFF < 256 /\
  256 * Z.shiftr a 8 + Z.land a 0xFF = a.
Proof.
  intros Ha. rewrite land_255_low, Z.shiftr_div_pow2 by lia.
  change (2 ^ 8) with 256. Z.to_euclidean_division_equations. lia.
Qed.

(** The first transaction of one iteration of the loop of [_get_coords],
    whatever the bus does. *)
Lemma read_point_first_request bus_ok bus_data st (i : nat) :
  wf st -> (i < 16)%nat ->
  exists tl,
    trace (read_point bus_ok bus_data (Z.of_nat i) st).2
    = trace st
        ++ Writeto GT911_I2C_SLAVE_ADDR
             (encode_address (GT911_POINT1_X_ADDR + Z.of_nat i * 8)) :: tl.
Proof.
  intros Hwf Hi.
  destruct (read_point_outcome bus_ok bus_data i st Hwf Hi)
    as (_ & [[Hr Htr] | (Hr & Hbus & ev & [k Hk] & Htr)]).
  - rewrite Htr. eexists. reflexivity.
  - destruct ev as [|e ev].
    + exfalso. rewrite app_nil_r in Htr. rewrite Htr in Hbus.
      revert Hr Htr Hbus. open_state st Hwf. unfold read_point.
      exec; intros Hr Htr Hbus'; try discriminate Hr;
        cbn [trace] in Htr; apply (f_equal length) in Htr;
        rewrite ?length_app in Htr; cbn [length] in Htr; lia.
    + rewrite Htr. unfold point_query in Hk. injection Hk as <- _.
      eexists. reflexivity.
Qed.

(** X12: whatever the bus does, the iteration of the loop of
    [_get_coords] for a point index below 16 begins with the write, to
    the controller, of two bytes whose big-endian value is the register
    [0x8150 + i * 8]; two iterations that begin with the same write are
    for the same index, so every point block is queried at a register of
    its own. *)
Theorem read_point_address bus_ok bus_data st (i j : nat) :
  wf st -> (i < 16)%nat -> (j < 16)%nat ->
  (exists high low tl,
      trace (read_point bus_ok bus_data (Z.of_nat i) st).2
      = trace st ++ Writeto GT911_I2C_SLAVE_ADDR [high; low] :: tl /\
      0 <= high < 256 /\ 0 <= low < 256 /\
      256 * high + low = GT911_POINT1_X_ADDR + Z.of_nat i * 8) /\
  (forall buf tl tl',
      trace (read_point bus_ok bus_data (Z.of_nat i) st).2
      = trace st ++ Writeto GT911_I2C_SLAVE_ADDR buf :: tl ->
      trace (read_point bus_ok bus_data (Z.of_nat j) st).2
      = trace st ++ Writeto GT911_I2C_SLAVE_ADDR buf :: tl' ->
      i = j).
Proof.
  intros Hwf Hi Hj.
  destruct (read_point_first_request bus_ok bus_data st i Hwf Hi) as [tli Hti].
  destruct (read_point_first_request bus_ok bus_data st j Hwf Hj) as [tlj Htj].
  destruct (address_split (GT911_POINT1_X_ADDR + Z.of_nat i * 8))
    as (Hhi & Hli & Hsi); [unfold GT911_POINT1_X_ADDR; lia|].
  destruct (address_split (GT911_POINT1_X_ADDR + Z.of_nat j * 8))
    as (_ & _ & Hsj); [unfold GT911_POINT1_X_ADDR; lia|].
  split.
  - do 3 eexists. split; [exact Hti|]. repeat split; lia.
  - intros buf tl tl' Hbi Hbj.
    rewrite Hti in Hbi. rewrite Htj in Hbj.
    apply app_inv_head in Hbi, Hbj.
    injection Hbi as Hbi _. injection Hbj as Hbj _.
    rewrite <- Hbj in Hbi. unfold encode_address in Hbi.
    injection Hbi as Hhigh Hlow.
    rewrite Hhigh, Hlow in Hsi. lia.
Qed.

(** ** The further properties on concrete devices *)

(** [poll_reports_bus_failure] on a bus that fails at the fourth
    transaction, the read of the first point block: the poll raises. *)
Lemma poll_reports_bus_failure_witness :
  (_get_coords (ok_for 3) (scripted three_point_blocks) fl_fixed fresh).1
  = Raise OSError /\
  ok_for 3
    (trace (_get_coords (ok_for 3) (scripted three_point_blocks) fl_fixed
              fresh).2)
  = false.
Proof.
  destruct (poll_reports_bus_failure (ok_for 3) (scripted three_point_blocks)
              fl_fixed fresh (wf_new 480 320 [])) as [_ H].
  split; [reflexivity|]. apply (H OSError). reflexivity.
Defined.

(** [poll_traffic] for a poll of three points. *)
Lemma poll_traffic_witness :
  exists ev,
    trace (_get_coords always_ok (scripted three_point_blocks) fl_fixed fresh).2
    = ev /\
    (length ev <= 33)%nat /\ Forall poll_event ev.
Proof.
  exact (poll_traffic always_ok (scripted three_point_blocks) fl_fixed fresh
           (wf_new 480 320 [])).
Defined.

(** [product_id_reversed] for a device that delivers 0x00, "1", "1",
    "9". *)
Lemma product_id_reversed_witness :
  exists st',
    product_id always_ok (scripted identity_blocks) utf8_ascii fresh
    = (Ok [0x39; 0x31; 0x31; 0x00], st') /\
    trace st' = product_id_query.
Proof.
  apply (product_id_reversed always_ok (scripted identity_blocks) utf8_ascii
           fresh); [intros; reflexivity | reflexivity].
Defined.

(** [firmware_value] for the bytes 0x60, 0x10: version 0x1060. *)
Lemma firmware_value_witness :
  exists st',
    firmware always_ok (scripted firmware_blocks) fresh = (Ok 0x1060, st') /\
    trace st' = firmware_query.
Proof.
  destruct (firmware_value always_ok (scripted firmware_blocks) fresh)
    as [_ H]; [intros; reflexivity | reflexivity |].
  exact H.
Defined.

(** [init_endings] for a device whose product ID is not text: [init]
    stops after the product-ID query. *)
Lemma init_endings_witness :
  (init always_ok (scripted garbled_identity_blocks) utf8_ascii fresh).1
  = Raise UnicodeError /\
  trace (init always_ok (scripted garbled_identity_blocks) utf8_ascii fresh).2
  = product_id_query.
Proof.
  destruct (init_endings always_ok (scripted garbled_identity_blocks)
              utf8_ascii fresh (wf_new 480 320 [])) as (_ & _ & H).
  split; [reflexivity|].
  destruct (H UnicodeError eq_refl) as [[H1 _] | (_ & _ & H2)];
    [discriminate H1 | exact H2].
Defined.

(** [set_command_register_wraps] for the command 0x104: the byte sent
    is 0x04. *)
Lemma set_command_register_wraps_witness :
  trace (set_command_register always_ok 0x104 fresh).2
  = [Writeto GT911_I2C_SLAVE_ADDR [0x80; 0x40; 0x04]].
Proof.
  destruct (set_command_register_wraps always_ok fresh 0x104
              (wf_new 480 320 [])) as [H _].
  exact H.
Defined.

(** [operations_keep_buffer] on a dead bus. *)
Lemma operations_keep_buffer_witness :
  wf (_get_coords never_ok (scripted not_ready_blocks) fl_fixed fresh).2 /\
  wf (set_command_register never_ok GT911_CMD_CALIBRATE fresh).2 /\
  wf (firmware never_ok (scripted not_ready_blocks) fresh).2 /\
  wf (product_id never_ok (scripted not_ready_blocks) utf8_ascii fresh).2.
Proof.
  exact (operations_keep_buffer never_ok (scripted not_ready_blocks)
           utf8_ascii fl_fixed fresh GT911_CMD_CALIBRATE (wf_new 480 320 [])).
Defined.

(** [poll_point_within_bounds] for the points (100,100), (102,104),
    (98,96): the reported point lies in the rectangle from (98,96) to
    (102,104). *)
Lemma poll_point_within_bounds_witness :
  (0 <= 100 <= 65535 /\ 0 <= 100 <= 65535) /\
  (98 <= 100 <= 102 /\ 96 <= 100 <= 104).
Proof.
  destruct (poll_point_within_bounds always_ok (scripted three_point_blocks)
              fl_fixed fresh 100 100 fl_fixed_format (wf_new 480 320 []))
    as [Hrange Hbox]; [vm_compute; reflexivity|].
  split; [exact Hrange|].
  apply Hbox.
  change (Forall (fun q : Z * Z => 98 <= q.1 <= 102 /\ 96 <= q.2 <= 104)
            [(100, 100); (102, 104); (98, 96)]).
  repeat (apply Forall_cons_2; [cbn [fst snd]; lia|]). apply Forall_nil_2.
Defined.

(** [poll_single_point] for the block 0x34, 0x01, 0x78, 0x02, 0, 0. *)
Lemma poll_single_point_witness :
  exists st',
    _get_coords always_ok (scripted one_point_blocks) fl_fixed fresh
    = (Ok (Some (308, 632)), st').
Proof.
  apply (poll_single_point always_ok (scripted one_point_blocks) fl_fixed fresh);
    [exact fl_fixed_format | intros; reflexivity | reflexivity
    | vm_compute; discriminate | reflexivity].
Defined.

(** [init_config_dimensions_round_trip] for a panel of 480 by 320. *)
Lemma init_config_dimensions_round_trip_witness :
  exists config w_low w_high h_low h_high,
    init_config 480 320 = Ok config /\
    config !! 3%nat = Some w_low /\ config !! 4%nat = Some w_high /\
    config !! 5%nat = Some h_low /\ config !! 6%nat = Some h_high /\
    decode_u16_le w_low w_high = 480 /\
    decode_u16_le h_low h_high = 320.
Proof.
  destruct (init_config_dimensions_round_trip 480 320)
    as (config & wl & wh & hl & hh & Hc & H3 & H4 & H5 & H6 & _ & _ & Hw & Hh).
  exists config, wl, wh, hl, hh.
  repeat (split; [assumption|]).
  split; [apply Hw; lia | apply Hh; lia].
Defined.

(** [read_point_address] for the point 14 on a dead bus: the write of
    the address 0x81C0 is still requested. *)
Lemma read_point_address_witness :
  exists high low tl,
    trace (read_point never_ok (scripted fifteen_point_blocks)
             (Z.of_nat 14) fresh).2
    = Writeto GT911_I2C_SLAVE_ADDR [high; low] :: tl /\
    0 <= high < 256 /\ 0 <= low < 256 /\
    256 * high + low = 0x81C0.
Proof.
  destruct (read_point_address never_ok (scripted fifteen_point_blocks)
              fresh 14 0 (wf_new 480 320 [])) as [H _]; [lia | lia |].
  exact H.
Defined.

(** [init_then_poll] for a device that reports one point after its
    identification. *)
Lemma init_then_poll_witness :
  exists config st1 st2,
    init always_ok (scripted (identity_blocks ++ one_point_blocks)) utf8_ascii
      fresh = (Ok tt, st1) /\
    _get_coords always_ok (scripted (identity_blocks ++ one_point_blocks))
      fl_fixed st1 = (Ok (Some (308, 632)), st2) /\
    trace st1 =
      product_id_query ++ firmware_query
        ++ [Writeto GT911_I2C_SLAVE_ADDR config; command_write GT911_CMD_READ] /\
    length (trace st2) = 11%nat.
Proof.
  destruct (init_then_poll always_ok
              (scripted (identity_blocks ++ one_point_blocks)) utf8_ascii
              fl_fixed fresh)
    as (config & st1 & st2 & Hinit & Hpoll & Htr1 & Htr2);
    [intros; reflexivity | intros; reflexivity | reflexivity |].
  exists config, st1, st2.
  split; [exact Hinit|].
  assert (Hst1 : st1 = (init always_ok
                          (scripted (identity_blocks ++ one_point_blocks))
                          utf8_ascii fresh).2)
    by (rewrite Hinit; reflexivity).
  split; [rewrite Hpoll, Hst1; reflexivity|].
  split; [exact Htr1|].
  rewrite Htr2, Hst1. reflexivity.
Defined.
